(** * app.py: a Flask route around a backoff-guarded Gemini call

    The development embeds [src/app.py]: the module-level configuration,
    [call_gemini_with_backoff] and the route handler [home].  Python's
    effects are threaded explicitly: a computation takes the world (what the
    process did so far) and returns a result, or a raised exception, with the
    world it leaves behind.  The collaborators the module imports
    ([os.environ], [genai.Client], [client.models.generate_content],
    [flask.render_template_string]) are fields of an [Environment], and so is
    what the google-genai library does where the module relies on it:
    whether [types.Part.from_text] takes a positional argument, and what
    reading [grounding_attributions] off a grounding metadata object gives. *)

From Stdlib Require Import String Ascii ZArith List Bool Lia DecimalString.
Import ListNotations.

Local Open Scope Z_scope.
Local Open Scope list_scope.
Local Open Scope string_scope.

(** ** Python values and control flow *)

(** An instance of [Exception]; [message] is what [str(e)] and [{e}] in an
    f-string produce.  [except Exception] catches every one of them. *)
Inductive Exception : Type :=
| Exc (message : string).

Definition str_of_exception (e : Exception) : string :=
  match e with Exc message => message end.

(** Outcome of evaluating a Python expression or block. *)
Inductive Result (A : Type) : Type :=
| Ok (value : A)
| Raise (e : Exception).

Arguments Ok {A} value.
Arguments Raise {A} e.

(** The double quote character, and string literals in which a backquote
    stands for it: [qq] puts the double quotes back.  None of the literals of
    app.py contains a backquote. *)
Definition double_quote : ascii := ascii_of_nat 34.

Fixpoint qq (s : string) : string :=
  match s with
  | EmptyString => EmptyString
  | String c rest =>
      String (if Ascii.eqb c "`"%char then double_quote else c) (qq rest)
  end.

(** Truth value of a [str]: the empty string is false. *)
Definition truthy_str (s : string) : bool :=
  match s with
  | EmptyString => false
  | String _ _ => true
  end.

(** Truth value of an attribute holding a [str] or [None]. *)
Definition truthy_opt_str (v : option string) : bool :=
  match v with
  | Some s => truthy_str s
  | None => false
  end.

(** Truth value of an attribute holding a list or [None]. *)
Definition truthy_opt_list {A : Type} (v : option (list A)) : bool :=
  match v with
  | Some (_ :: _) => true
  | _ => false
  end.

(** [{v}] in an f-string, for an attribute holding a [str] or [None]. *)
Definition format_opt_str (v : option string) : string :=
  match v with
  | Some s => s
  | None => "None"
  end.

(** [{n}] in an f-string, for an [int]. *)
Definition format_int (n : Z) : string :=
  NilZero.string_of_int (Z.to_int n).

(** [range(n)]: empty when [n <= 0]. *)
Definition range (n : Z) : list Z :=
  map Z.of_nat (seq 0 (Z.to_nat n)).

(** [sep.join(items)] with the empty separator. *)
Definition join_empty (items : list string) : string :=
  fold_right String.append EmptyString items.

(** [needle in haystack] for strings. *)
Fixpoint contains (needle haystack : string) : bool :=
  String.prefix needle haystack
  || match haystack with
     | EmptyString => false
     | String _ rest => contains needle rest
     end.

(** ** The types of google.genai that app.py touches *)

Record Part : Type := { part_text : string }.
Record Content : Type := { parts : list Part }.

Inductive Tool : Type :=
| google_search.

Record GenerateContentConfig : Type :=
  { system_instruction : string;
    tools : list Tool }.

(** What the handler reads off one attribution: [attr.web.uri] and
    [attr.web.title]. *)
Record Web : Type :=
  { uri : option string;
    title : option string }.

Record GroundingAttribution : Type := { web : option Web }.

(** The grounding metadata of the library: the sources of an answer are its
    grounding chunks.  The type has no attribute [grounding_attributions]. *)
Record GroundingChunk : Type := { chunk_web : option Web }.

Record GroundingMetadata : Type :=
  { grounding_chunks : list GroundingChunk;
    web_search_queries : list string }.

Record Candidate : Type :=
  { content : option Content;
    grounding_metadata : option GroundingMetadata }.

(** A response holds candidates; its text is read off them, see
    [response_text].  Parts that are not text are left out. *)
Record GenerateContentResponse : Type :=
  { candidates : option (list Candidate) }.

Record Client : Type := { api_key : string }.

(** The keyword arguments of one [client.models.generate_content] call. *)
Record GenerateContentCall : Type :=
  { model : string;
    contents : list Content;
    config : GenerateContentConfig }.

(** ** The world *)

(** What the process does that can be observed from outside, in order. *)
Inductive Action : Type :=
| ClientInit (key : string)
| Generate (client : Client) (call : GenerateContentCall)
| Sleep (seconds : Z).

Record World : Type :=
  { actions : list Action;
    stdout : list string }.

Definition fresh_world : World := {| actions := []; stdout := [] |}.

Definition is_generate (a : Action) : bool :=
  match a with
  | Generate _ _ => true
  | _ => false
  end.

Definition is_client_init (a : Action) : bool :=
  match a with
  | ClientInit _ => true
  | _ => false
  end.

(** Number of remote generation calls made so far. *)
Definition calls_made (w : World) : nat :=
  length (filter is_generate (actions w)).

(** Number of times the client constructor was invoked so far. *)
Definition clients_built (w : World) : nat :=
  length (filter is_client_init (actions w)).

(** The delays slept so far, oldest first. *)
Definition sleeps (w : World) : list Z :=
  flat_map (fun a => match a with Sleep s => [s] | _ => [] end) (actions w).

(** The collaborators of the module.  The outcome of a remote call may
    depend on the client, on what is sent, and on how many calls were made
    before it.  [from_text_error] is what [types.Part.from_text] raises when
    it is called with one positional argument, [None] when it takes it; and
    [grounding_attributions_attr] is the outcome of reading the attribute
    [grounding_attributions] off a grounding metadata object. *)
Record Environment : Type :=
  { environ : string -> option string;
    genai_Client : string -> Result Client;
    models_generate_content :
      Client -> GenerateContentCall -> nat -> Result GenerateContentResponse;
    render_template_string : string -> Result string;
    from_text_error : option Exception;
    grounding_attributions_attr :
      GroundingMetadata -> Result (option (list GroundingAttribution)) }.

(** ** Effectful computations *)

Definition M (A : Type) : Type := World -> Result A * World.

Definition ret {A : Type} (a : A) : M A := fun w => (Ok a, w).

Definition bind {A B : Type} (m : M A) (f : A -> M B) : M B :=
  fun w =>
    match m w with
    | (Ok a, w') => f a w'
    | (Raise e, w') => (Raise e, w')
    end.

(** [try: body except Exception as e: handler e]. *)
Definition try_except {A : Type} (body : M A) (handler : Exception -> M A) : M A :=
  fun w =>
    match body w with
    | (Ok a, w') => (Ok a, w')
    | (Raise e, w') => handler e w'
    end.

Definition lift {A : Type} (r : Result A) : M A := fun w => (r, w).

Declare Scope py_scope.
Delimit Scope py_scope with py.
Notation "x <- m ;; k" := (bind m (fun x => k))
  (at level 61, m at next level, right associativity) : py_scope.
Notation "m ;; k" := (bind m (fun _ => k))
  (at level 61, right associativity) : py_scope.
Local Open Scope py_scope.

Definition perform (a : Action) : M unit :=
  fun w => (Ok tt, {| actions := actions w ++ [a]; stdout := stdout w |}).

Definition print (line : string) : M unit :=
  fun w => (Ok tt, {| actions := actions w; stdout := stdout w ++ [line] |}).

Definition time_sleep (seconds : Z) : M unit := perform (Sleep seconds).

(** [genai.Client(api_key=key)]. *)
Definition new_client (env : Environment) (key : string) : M Client :=
  perform (ClientInit key) ;; lift (genai_Client env key).

(** [client.models.generate_content(model=..., contents=..., config=...)]. *)
Definition generate_content (env : Environment) (client : Client)
    (call : GenerateContentCall) : M GenerateContentResponse :=
  fun w =>
    (models_generate_content env client call (calls_made w),
     {| actions := actions w ++ [Generate client call]; stdout := stdout w |}).

(** [types.Part.from_text(text)], the text given as positional argument:
    the part holding the text, when the library takes the argument. *)
Definition Part_from_text (env : Environment) (text : string) : Result Part :=
  match from_text_error env with
  | Some e => Raise e
  | None => Ok {| part_text := text |}
  end.

(** [response.text]: the texts of the parts of the first candidate, joined;
    [None] without candidates, without content or without parts. *)
Definition response_text (response : GenerateContentResponse) : option string :=
  match candidates response with
  | Some (candidate0 :: _) =>
      match content candidate0 with
      | Some c =>
          match parts c with
          | [] => None
          | _ :: _ => Some (join_empty (map part_text (parts c)))
          end
      | None => None
      end
  | _ => None
  end.

(** ** Configuration (app.py, lines 9-10) *)

Definition API_KEY (env : Environment) : string :=
  match environ env "GEMINI_API_KEY" with
  | Some v => v
  | None => EmptyString
  end.

Definition MODEL_NAME : string := "gemini-2.5-flash-preview-09-2025".

(** ** call_gemini_with_backoff (app.py, lines 14-40) *)

(** What one turn of the [for] loop decides. *)
Inductive Flow (A : Type) : Type :=
| Return (a : A)
| Next.

Arguments Return {A} a.
Arguments Next {A}.

(** The body of the loop for one value of [attempt]. *)
Definition attempt_body (env : Environment) (client : Client)
    (contents : list Content) (system_instruction : string)
    (tools : list Tool) (max_retries attempt : Z)
    : M (Flow (option GenerateContentResponse)) :=
  try_except
    (print ("Attempting API call (Attempt " ++ format_int (attempt + 1)%Z ++ ")...") ;;
     let config :=
       {| system_instruction := system_instruction; tools := tools |} in
     response <- generate_content env client
                   {| model := MODEL_NAME; contents := contents; config := config |} ;;
     print "API call successful." ;;
     ret (Return (Some response)))
    (fun e =>
       print ("API call failed on attempt " ++ format_int (attempt + 1)%Z ++ ": "
              ++ str_of_exception e) ;;
       if (attempt <? max_retries - 1)%Z then
         let sleep_time := (2 ^ attempt)%Z in
         print ("Waiting " ++ format_int sleep_time ++ " seconds before retrying...") ;;
         time_sleep sleep_time ;;
         ret Next
       else
         ret (Return None)).

(** [for attempt in attempts: body attempt], followed by [return None]. *)
Fixpoint for_each {A : Type} (body : Z -> M (Flow (option A)))
    (attempts : list Z) : M (option A) :=
  match attempts with
  | [] => ret None
  | attempt :: rest =>
      flow <- body attempt ;;
      match flow with
      | Return r => ret r
      | Next => for_each body rest
      end
  end.

Definition call_gemini_with_backoff (env : Environment) (client : Client)
    (contents : list Content) (system_instruction : string)
    (tools : list Tool) (max_retries : Z)
    : M (option GenerateContentResponse) :=
  for_each
    (attempt_body env client contents system_instruction tools max_retries)
    (range max_retries).

Definition default_max_retries : Z := 5.

(** ** home (app.py, lines 42-149) *)

(** *** The literals of the handler *)

Definition API_KEY_MISSING_PAGE : string :=
  qq "
            <div style=`padding: 40px; text-align: center; font-family: sans-serif;`>
                <h1 style=`color: #EF4444;`>API Key Missing</h1>
                <p>The <code>GEMINI_API_KEY</code> environment variable is not set.</p>
                <p>Please ensure you set the environment variable or, if deploying, that the platform is injecting it.</p>
                <p style=`color: #6B7280; font-size: 14px;`>(The key is left blank in this file to be securely injected by the environment.)</p>
            </div>
        ".

Definition API_CALL_FAILED_PAGE : string :=
  qq "
            <div style=`padding: 40px; text-align: center; font-family: sans-serif;`>
                <h1 style=`color: #F59E0B;`>API Call Failed</h1>
                <p>Could not get a response from the Gemini API after multiple retries.</p>
                <p>Please check your network connection and API key validity.</p>
            </div>
            ".

Definition html_sources_open : string :=
  qq "
            <div class=`mt-8 pt-4 border-t border-gray-200`>
                <p class=`text-xs font-semibold uppercase text-gray-400 mb-2`>Sources (Grounded by Google Search):</p>
                <ul class=`list-disc list-inside space-y-1`>".

Definition html_sources_close : string :=
  qq "</ul>
            </div>
        ".

Definition html_template_head : string :=
  qq "
    <!DOCTYPE html>
    <html lang=`en`>
    <head>
        <meta charset=`UTF-8`>
        <meta name=`viewport` content=`width=device-width, initial-scale=1.0`>
        <title>Gemini Hello World App</title>
        <script src=`https://cdn.tailwindcss.com`></script>
        <link href=`https://fonts.googleapis.com/css2?family=Inter:wght@400;600;700&display=swap` rel=`stylesheet`>
        <style>
            body { font-family: 'Inter', sans-serif; background-color: #f7fafc; }
        </style>
    </head>
    <body class=`p-8`>
        <div class=`max-w-3xl mx-auto bg-white shadow-xl rounded-xl p-8 md:p-12 mt-10`>
            <h1 class=`text-3xl font-bold text-gray-800 mb-6 flex items-center`>
                🤖 Gemini App Running on Doprax
            </h1>
            <div class=`bg-blue-50 border-l-4 border-blue-400 text-blue-800 p-4 rounded-lg`>
                <p class=`font-medium text-lg`>Response from Gemini:</p>
                <p class=`mt-2 whitespace-pre-wrap`>".

Definition html_template_mid : string :=
  qq "</p>
            </div>
            ".

Definition html_template_tail : string :=
  qq "
            <div class=`mt-10 text-center text-gray-400 text-sm`>
                <p>This application was deployed using Python 3.12 and Flask.</p>
            </div>
        </div>
    </body>
    </html>
    ".

(** The f-string of line 59. *)
Definition client_error_template (e : Exception) : string :=
  "<h1 style='color: #EF4444;'>Client Initialization Error</h1><p>"
  ++ str_of_exception e ++ "</p>".

Definition system_prompt : string :=
  "You are a friendly, witty, and highly helpful assistant running on a new web service. Your task is to greet the user and provide a single, fascinating, and up-to-date piece of information about the world of technology or science, grounded by Google Search.".

Definition user_query : string :=
  "Give me one amazing fact about the current state of AI or space exploration.".

(** One entry of [sources]: the dict [{'uri': ..., 'title': ...}], holding
    the attribute values as they are. *)
Record Source : Type :=
  { source_uri : option string;
    source_title : option string }.

(** The f-string of line 108. *)
Definition list_item (s : Source) : string :=
  "<li class='text-sm text-gray-500'><a href='" ++ format_opt_str (source_uri s)
  ++ "' target='_blank' class='hover:underline text-blue-500'>"
  ++ format_opt_str (source_title s) ++ "</a></li>".

(** The f-string of lines 119-148. *)
Definition html_template (generated_text html_sources : string) : string :=
  html_template_head ++ generated_text ++ html_template_mid
  ++ html_sources ++ html_template_tail.

(** *** Processing the response (lines 90-149) *)

(** The list comprehension of lines 98-102. *)
Definition sources_of_attributions (attributions : list GroundingAttribution)
    : list Source :=
  flat_map
    (fun attr =>
       match web attr with
       | Some w =>
           if truthy_opt_str (uri w) && truthy_opt_str (title w)
           then [{| source_uri := uri w; source_title := title w |}]
           else []
       | None => []
       end)
    attributions.

(** Lines 92-102: [sources] once the grounding metadata was looked at.  The
    attribute [grounding_attributions] is read when the first candidate has
    grounding metadata, and only then; reading it may raise. *)
Definition response_sources (env : Environment)
    (response : GenerateContentResponse) : Result (list Source) :=
  match candidates response with
  | Some (candidate0 :: _) =>
      match grounding_metadata candidate0 with
      | Some metadata =>
          match grounding_attributions_attr env metadata with
          | Ok (Some (attr :: others)) => Ok (sources_of_attributions (attr :: others))
          | Ok _ => Ok []
          | Raise e => Raise e
          end
      | None => Ok []
      end
  | _ => Ok []
  end.

(** Lines 105-116. *)
Definition render_sources (sources : list Source) : string :=
  match sources with
  | [] => EmptyString
  | _ :: _ =>
      let list_items := join_empty (map list_item sources) in
      html_sources_open ++ list_items ++ html_sources_close
  end.

(** Lines 90-149: the page built from a response. *)
Definition build_page (env : Environment) (response : GenerateContentResponse)
    : Result string :=
  let generated_text := response_text response in
  match response_sources env response with
  | Ok sources =>
      Ok (html_template (format_opt_str generated_text) (render_sources sources))
  | Raise e => Raise e
  end.

(** *** The handler *)

Definition home (env : Environment) : M string :=
  if negb (truthy_str (API_KEY env)) then
    lift (render_template_string env API_KEY_MISSING_PAGE)
  else
    built <- try_except
               (client <- new_client env (API_KEY env) ;; ret (inl client))
               (fun e =>
                  page <- lift (render_template_string env (client_error_template e)) ;;
                  ret (inr page)) ;;
    match built with
    | inr page => ret page
    | inl client =>
        let tools := [google_search] in
        part <- lift (Part_from_text env user_query) ;;
        let contents := [{| parts := [part] |}] in
        response <- call_gemini_with_backoff env client contents system_prompt
                      tools default_max_retries ;;
        match response with
        | None => lift (render_template_string env API_CALL_FAILED_PAGE)
        | Some response => lift (build_page env response)
        end
    end.

(** *** What Flask makes of the handler *)

(** A [str] returned by a view function becomes the body of a response with
    status 200; an exception leaving the view function becomes a 500. *)
Inductive HttpResponse : Type :=
| Page (body : string)
| InternalServerError (e : Exception).

Definition status_code (r : HttpResponse) : Z :=
  match r with
  | Page _ => 200
  | InternalServerError _ => 500
  end.

Definition serve (env : Environment) (w : World) : HttpResponse * World :=
  match home env w with
  | (Ok body, w') => (Page body, w')
  | (Raise e, w') => (InternalServerError e, w')
  end.

(** *** Templates that hold no template syntax *)

(** A template source without [{{], [{%] or [{#], without carriage return
    and not ending in a newline is plain data for the template engine, which
    emits it as it stands. *)
Definition ends_with_newline (s : string) : bool :=
  match rev (list_ascii_of_string s) with
  | c :: _ => Ascii.eqb c (ascii_of_nat 10)
  | [] => false
  end.

Definition carriage_return : string := String (ascii_of_nat 13) EmptyString.

Definition plain_template (s : string) : bool :=
  negb (contains "{{" s) && negb (contains "{%" s) && negb (contains "{#" s)
  && negb (contains carriage_return s)
  && negb (ends_with_newline s).

(** ** Vocabulary of the statements *)

(** What [call_gemini_with_backoff] sends at every attempt. *)
Definition backoff_call (contents : list Content) (system_instruction : string)
    (tools : list Tool) : GenerateContentCall :=
  {| model := MODEL_NAME;
     contents := contents;
     config := {| system_instruction := system_instruction; tools := tools |} |}.

(** What [home] sends. *)
Definition home_call : GenerateContentCall :=
  backoff_call [{| parts := [{| part_text := user_query |}] |}] system_prompt
               [google_search].

(** [count] failed attempts, numbered from [first], each followed by its
    backoff sleep. *)
Definition failed_rounds (client : Client) (call : GenerateContentCall)
    (first count : nat) : list Action :=
  flat_map (fun i => [Generate client call; Sleep (2 ^ Z.of_nat i)])
           (seq first count).

(** The delays [2^0, 2^1, ..., 2^(count-1)]. *)
Definition backoff_delays (count : nat) : list Z :=
  map (fun i => (2 ^ Z.of_nat i)%Z) (seq 0 count).

(** Every call to the remote generation service raises. *)
Definition always_raises (env : Environment) : Prop :=
  forall client call i, exists e, models_generate_content env client call i = Raise e.

(** Counting from the calls already made in [w], the remote service raises
    on the next [k - 1] calls and answers [response] to call number [k]. *)
Definition succeeds_at (env : Environment) (client : Client)
    (call : GenerateContentCall) (w : World) (k : nat)
    (response : GenerateContentResponse) : Prop :=
  (forall i, (i < k - 1)%nat ->
     exists e, models_generate_content env client call (calls_made w + i) = Raise e)
  /\ models_generate_content env client call (calls_made w + (k - 1)) = Ok response.

(** The world once the client constructor was invoked. *)
Definition after_client_init (env : Environment) (w : World) : World :=
  {| actions := actions w ++ [ClientInit (API_KEY env)]; stdout := stdout w |}.

(** The template engine emits a source without template syntax as it is. *)
Definition renders_plain (env : Environment) : Prop :=
  forall s, plain_template s = true -> render_template_string env s = Ok s.

(** The grounding metadata of the first candidate of a response, if any:
    what lines 95-96 look at. *)
Definition first_metadata (response : GenerateContentResponse)
    : option GroundingMetadata :=
  match candidates response with
  | Some (candidate0 :: _) => grounding_metadata candidate0
  | _ => None
  end.

(** The opening tag of the pre-wrapped block that holds the answer. *)
Definition pre_wrap_open : string := qq "<p class=`mt-2 whitespace-pre-wrap`>".

(** ** Sample environments *)

Definition sample_client : Client := {| api_key := "secret" |}.

Definition environ_with_key (name : string) : option string :=
  if String.eqb name "GEMINI_API_KEY" then Some "secret" else None.

Definition environ_without_key (name : string) : option string := None.

(** A template engine that knows plain sources only. *)
Definition plain_only_renderer (source : string) : Result string :=
  if plain_template source then Ok source
  else Raise (Exc "TemplateSyntaxError").

(** The library as it is: [Part.from_text] takes its text by keyword only,
    and a grounding metadata object has no [grounding_attributions]. *)
Definition type_error : Exception :=
  Exc "Part.from_text() takes 1 positional argument but 2 were given".

Definition attribute_error : Exception :=
  Exc "'GroundingMetadata' object has no attribute 'grounding_attributions'".

Definition no_grounding_attributions (metadata : GroundingMetadata)
    : Result (option (list GroundingAttribution)) :=
  Raise attribute_error.

(** A response with one candidate holding one text part, grounded or not. *)
Definition answer (s : string) (metadata : option GroundingMetadata)
    : GenerateContentResponse :=
  {| candidates :=
       Some [{| content := Some {| parts := [{| part_text := s |}] |};
                grounding_metadata := metadata |}] |}.

Definition grounded_by (u t : string) : GroundingMetadata :=
  {| grounding_chunks := [{| chunk_web := Some {| uri := Some u; title := Some t |} |}];
     web_search_queries := [] |}.

(** The remote service is down. *)
Definition env_down : Environment :=
  {| environ := environ_with_key;
     genai_Client := fun key => Ok {| api_key := key |};
     models_generate_content := fun _ _ _ => Raise (Exc "503 UNAVAILABLE");
     render_template_string := plain_only_renderer;
     from_text_error := Some type_error;
     grounding_attributions_attr := no_grounding_attributions |}.

(** The remote service fails twice, then answers with one source; the
    library takes the positional argument of [from_text]. *)
Definition fact_x : GenerateContentResponse :=
  answer "Fact X" (Some (grounded_by "https://a.example" "A")).

Definition env_third_time : Environment :=
  {| environ := environ_with_key;
     genai_Client := fun key => Ok {| api_key := key |};
     models_generate_content :=
       fun _ _ i => if (i <? 2)%nat then Raise (Exc "429 RESOURCE_EXHAUSTED")
                    else Ok fact_x;
     render_template_string := plain_only_renderer;
     from_text_error := None;
     grounding_attributions_attr := no_grounding_attributions |}.

(** The remote service answers at once, with what it is given to answer. *)
Definition env_answering (response : GenerateContentResponse) : Environment :=
  {| environ := environ_with_key;
     genai_Client := fun key => Ok {| api_key := key |};
     models_generate_content := fun _ _ _ => Ok response;
     render_template_string := plain_only_renderer;
     from_text_error := Some type_error;
     grounding_attributions_attr := no_grounding_attributions |}.

(** A response without candidates, as for a blocked prompt: it has no text. *)
Definition textless_answer : GenerateContentResponse :=
  {| candidates := None |}.


(** A response whose text is markup. *)
Definition markup_answer : GenerateContentResponse := answer "<b>&</b>" None.

(** The credential variable is not set. *)
Definition env_no_key : Environment :=
  {| environ := environ_without_key;
     genai_Client := fun key => Ok {| api_key := key |};
     models_generate_content := fun _ _ _ => Raise (Exc "unreachable");
     render_template_string := plain_only_renderer;
     from_text_error := Some type_error;
     grounding_attributions_attr := no_grounding_attributions |}.

(** The page a template engine that evaluates expressions makes of the
    client-error page for the message [{{ 7*7 }}]. *)
Definition forty_nine : Exception := Exc "{{ 7*7 }}".

Definition forty_nine_page : string :=
  "<h1 style='color: #EF4444;'>Client Initialization Error</h1><p>49</p>".

Definition evaluating_renderer (source : string) : Result string :=
  if String.eqb source (client_error_template forty_nine) then Ok forty_nine_page
  else plain_only_renderer source.

(** The client constructor raises with an expression in its message. *)
Definition env_expression_in_message : Environment :=
  {| environ := environ_with_key;
     genai_Client := fun _ => Raise forty_nine;
     models_generate_content := fun _ _ _ => Raise (Exc "unreachable");
     render_template_string := evaluating_renderer;
     from_text_error := Some type_error;
     grounding_attributions_attr := no_grounding_attributions |}.

(** ** Vocabulary of the log and of the time slept *)

(** The seconds slept so far, added up. *)
Definition total_sleep (w : World) : Z := fold_right Z.add 0%Z (sleeps w).

(** The lines [call_gemini_with_backoff] prints for attempt number [i],
    counted from 0. *)
Definition attempting_line (i : nat) : string :=
  "Attempting API call (Attempt " ++ format_int (Z.of_nat i + 1)%Z ++ ")...".

Definition failed_line (i : nat) (e : Exception) : string :=
  "API call failed on attempt " ++ format_int (Z.of_nat i + 1)%Z ++ ": "
  ++ str_of_exception e.

Definition waiting_line (i : nat) : string :=
  "Waiting " ++ format_int (2 ^ Z.of_nat i)%Z ++ " seconds before retrying...".

(** The log of [count] failed attempts numbered from [first], each followed
    by its backoff sleep; [errs i] is what attempt [i] raised. *)
Definition failed_rounds_log (errs : nat -> Exception) (first count : nat)
    : list string :=
  flat_map (fun i => [attempting_line i; failed_line i (errs i); waiting_line i])
           (seq first count).

(** The remote service raises on each of the next [count] calls. *)
Definition raises_next (env : Environment) (client : Client)
    (call : GenerateContentCall) (w : World) (count : nat) : Prop :=
  forall i, (i < count)%nat ->
    exists e, models_generate_content env client call (calls_made w + i) = Raise e.

(** What the down service of [env_down] raises, whatever the attempt. *)
Definition unavailable (i : nat) : Exception := Exc "503 UNAVAILABLE".

(** What the service of [env_third_time] raises before it answers. *)
Definition exhausted_quota (i : nat) : Exception := Exc "429 RESOURCE_EXHAUSTED".

(** ** Bookkeeping on worlds *)

Lemma calls_made_app (w w' : World) (l : list Action) :
  actions w' = (actions w ++ l)%list ->
  calls_made w' = (calls_made w + length (filter is_generate l))%nat.
Proof.
  unfold calls_made; intros ->.
  now rewrite filter_app, length_app.
Qed.

Lemma clients_built_app (w w' : World) (l : list Action) :
  actions w' = (actions w ++ l)%list ->
  clients_built w' = (clients_built w + length (filter is_client_init l))%nat.
Proof.
  unfold clients_built; intros ->.
  now rewrite filter_app, length_app.
Qed.

Lemma sleeps_app (w w' : World) (l : list Action) :
  actions w' = (actions w ++ l)%list ->
  sleeps w' =
  (sleeps w ++ flat_map (fun a => match a with Sleep s => [s] | _ => [] end) l)%list.
Proof.
  unfold sleeps; intros ->.
  now rewrite flat_map_app.
Qed.

Lemma failed_rounds_S (client : Client) (call : GenerateContentCall)
    (first count : nat) :
  failed_rounds client call first (S count) =
  ([Generate client call; Sleep (2 ^ Z.of_nat first)]
   ++ failed_rounds client call (S first) count)%list.
Proof. reflexivity. Qed.

Lemma failed_rounds_calls (client : Client) (call : GenerateContentCall)
    (count first : nat) :
  length (filter is_generate (failed_rounds client call first count)) = count.
Proof.
  revert first; induction count as [|count IH]; intros first.
  - reflexivity.
  - rewrite failed_rounds_S. cbn. now rewrite IH.
Qed.

Lemma failed_rounds_sleeps (client : Client) (call : GenerateContentCall)
    (count first : nat) :
  flat_map (fun a => match a with Sleep s => [s] | _ => [] end)
           (failed_rounds client call first count)
  = map (fun i => (2 ^ Z.of_nat i)%Z) (seq first count).
Proof.
  revert first; induction count as [|count IH]; intros first.
  - reflexivity.
  - rewrite failed_rounds_S. cbn. now rewrite IH.
Qed.

Lemma range_nonpositive (n : Z) : (n <= 0)%Z -> range n = [].
Proof.
  intros H. unfold range.
  replace (Z.to_nat n) with 0%nat by lia. reflexivity.
Qed.

(** ** One turn of the loop *)

Section OneAttempt.

Variables (env : Environment) (client : Client) (contents : list Content)
          (system_instruction : string) (tools : list Tool)
          (max_retries attempt : Z).

Let call := backoff_call contents system_instruction tools.
Let body := attempt_body env client contents system_instruction tools max_retries.

Lemma attempt_answered (w : World) (response : GenerateContentResponse) :
  models_generate_content env client call (calls_made w) = Ok response ->
  exists w',
    body attempt w = (Ok (Return (Some response)), w')
    /\ actions w' = (actions w ++ [Generate client call])%list.
Proof.
  intros H. subst body call.
  unfold attempt_body, try_except, bind, print, generate_content, ret, backoff_call in *.
  cbn. unfold calls_made in *. cbn. rewrite H. cbn.
  eexists; split; reflexivity.
Qed.

Lemma attempt_retried (w : World) (e : Exception) :
  models_generate_content env client call (calls_made w) = Raise e ->
  (attempt < max_retries - 1)%Z ->
  exists w',
    body attempt w = (Ok Next, w')
    /\ actions w' =
       (actions w ++ [Generate client call; Sleep (2 ^ attempt)])%list.
Proof.
  intros H Hlt. subst body call.
  unfold attempt_body, try_except, bind, print, generate_content, ret,
    time_sleep, perform, backoff_call in *.
  cbn. unfold calls_made in *. cbn. rewrite H. cbn.
  apply Z.ltb_lt in Hlt. rewrite Hlt. cbn.
  eexists; split; [reflexivity|]. cbn.
  now rewrite <- app_assoc.
Qed.

Lemma attempt_gave_up (w : World) (e : Exception) :
  models_generate_content env client call (calls_made w) = Raise e ->
  (max_retries - 1 <= attempt)%Z ->
  exists w',
    body attempt w = (Ok (Return None), w')
    /\ actions w' = (actions w ++ [Generate client call])%list.
Proof.
  intros H Hge. subst body call.
  unfold attempt_body, try_except, bind, print, generate_content, ret, backoff_call in *.
  cbn. unfold calls_made in *. cbn. rewrite H. cbn.
  apply Z.ltb_ge in Hge. rewrite Hge. cbn.
  eexists; split; reflexivity.
Qed.

End OneAttempt.

(** ** The loop *)

Section Loop.

Variables (env : Environment) (client : Client) (contents : list Content)
          (system_instruction : string) (tools : list Tool)
          (max_retries : Z).

Let call := backoff_call contents system_instruction tools.
Let body := attempt_body env client contents system_instruction tools max_retries.

Lemma for_each_cons (attempt : Z) (rest : list Z) (w : World) :
  for_each body (attempt :: rest) w =
  match body attempt w with
  | (Ok (Return r), w') => (Ok r, w')
  | (Ok Next, w') => for_each body rest w'
  | (Raise e, w') => (Raise e, w')
  end.
Proof.
  cbn. unfold bind. destruct (body attempt w) as [[[r|]|e] w']; reflexivity.
Qed.

(** The loop stops at the first call that does not raise. *)
Lemma loop_stops_at_first_answer (response : GenerateContentResponse) :
  forall (j a : nat) (rest : list Z) (w : World),
    (Z.of_nat (a + j) < max_retries)%Z ->
    (forall i, (i < j)%nat ->
       exists e, models_generate_content env client call (calls_made w + i) = Raise e) ->
    models_generate_content env client call (calls_made w + j) = Ok response ->
    exists w',
      for_each body (map Z.of_nat (seq a (S j)) ++ rest) w = (Ok (Some response), w')
      /\ actions w' =
         (actions w ++ failed_rounds client call a j ++ [Generate client call])%list.
Proof.
  induction j as [|j IH]; intros a rest w Hlt Hfail Hok.
  - rewrite Nat.add_0_r in Hok.
    destruct (attempt_answered env client contents system_instruction tools
                max_retries (Z.of_nat a) w response Hok) as (w' & Hrun & Hact).
    exists w'. split; [|exact Hact].
    cbn [seq map app]. rewrite for_each_cons. subst body. now rewrite Hrun.
  - destruct (Hfail 0%nat ltac:(lia)) as [e He]. rewrite Nat.add_0_r in He.
    destruct (attempt_retried env client contents system_instruction tools
                max_retries (Z.of_nat a) w e He ltac:(lia)) as (w1 & Hrun & Hact).
    assert (Hcalls : calls_made w1 = S (calls_made w)).
    { rewrite (calls_made_app w w1 _ Hact). cbn. lia. }
    destruct (IH (S a) rest w1) as (w' & Hloop & Hact').
    + lia.
    + intros i Hi. rewrite Hcalls.
      replace (S (calls_made w) + i)%nat with (calls_made w + S i)%nat by lia.
      apply Hfail. lia.
    + rewrite Hcalls.
      replace (S (calls_made w) + j)%nat with (calls_made w + S j)%nat by lia.
      exact Hok.
    + exists w'. split.
      * change (map Z.of_nat (seq a (S (S j))) ++ rest)%list
          with (Z.of_nat a :: (map Z.of_nat (seq (S a) (S j)) ++ rest))%list.
        rewrite for_each_cons. subst body. rewrite Hrun. exact Hloop.
      * rewrite Hact', Hact, failed_rounds_S, <- !app_assoc. reflexivity.
Qed.

(** When no call answers, the loop goes through every attempt and sleeps
    after each but the last. *)
Lemma loop_exhausts_attempts :
  forall (m a : nat) (w : World),
    Z.of_nat (a + m) = (max_retries - 1)%Z ->
    (forall i, (i <= m)%nat ->
       exists e, models_generate_content env client call (calls_made w + i) = Raise e) ->
    exists w',
      for_each body (map Z.of_nat (seq a (S m))) w = (Ok None, w')
      /\ actions w' =
         (actions w ++ failed_rounds client call a m ++ [Generate client call])%list.
Proof.
  induction m as [|m IH]; intros a w Hlast Hfail.
  - destruct (Hfail 0%nat ltac:(lia)) as [e He]. rewrite Nat.add_0_r in He.
    destruct (attempt_gave_up env client contents system_instruction tools
                max_retries (Z.of_nat a) w e He ltac:(lia)) as (w' & Hrun & Hact).
    exists w'. split; [|exact Hact].
    cbn [seq map]. rewrite for_each_cons. subst body. now rewrite Hrun.
  - destruct (Hfail 0%nat ltac:(lia)) as [e He]. rewrite Nat.add_0_r in He.
    destruct (attempt_retried env client contents system_instruction tools
                max_retries (Z.of_nat a) w e He ltac:(lia)) as (w1 & Hrun & Hact).
    assert (Hcalls : calls_made w1 = S (calls_made w)).
    { rewrite (calls_made_app w w1 _ Hact). cbn. lia. }
    destruct (IH (S a) w1) as (w' & Hloop & Hact').
    + lia.
    + intros i Hi. rewrite Hcalls.
      replace (S (calls_made w) + i)%nat with (calls_made w + S i)%nat by lia.
      apply Hfail. lia.
    + exists w'. split.
      * change (map Z.of_nat (seq a (S (S m))))
          with (Z.of_nat a :: map Z.of_nat (seq (S a) (S m))).
        rewrite for_each_cons. subst body. rewrite Hrun. exact Hloop.
      * rewrite Hact', Hact, failed_rounds_S, <- !app_assoc. reflexivity.
Qed.

(** Whatever the remote calls do, the loop returns, and what it returns is
    [None] or a response the service gave. *)
Lemma loop_returns (attempts : list Z) :
  forall w : World,
    exists r w',
      for_each body attempts w = (Ok r, w')
      /\ forall response, r = Some response ->
           exists i, models_generate_content env client call i = Ok response.
Proof.
  induction attempts as [|attempt rest IH]; intros w.
  - exists None, w. split; [reflexivity | discriminate].
  - rewrite for_each_cons.
    destruct (models_generate_content env client call (calls_made w)) as [r|e] eqn:H.
    + destruct (attempt_answered env client contents system_instruction tools
                  max_retries attempt w r H) as (w' & Hrun & _).
      subst body. rewrite Hrun. exists (Some r), w'. split; [reflexivity|].
      intros response [= <-]. eauto.
    + destruct (Z.lt_ge_cases attempt (max_retries - 1)) as [Hlt|Hge].
      * destruct (attempt_retried env client contents system_instruction tools
                    max_retries attempt w e H Hlt) as (w' & Hrun & _).
        subst body. rewrite Hrun. apply IH.
      * destruct (attempt_gave_up env client contents system_instruction tools
                    max_retries attempt w e H Hge) as (w' & Hrun & _).
        subst body. rewrite Hrun. exists None, w'.
        split; [reflexivity | discriminate].
Qed.

End Loop.

(** ** Runs of call_gemini_with_backoff *)

Section Backoff.

Variables (env : Environment) (client : Client) (contents : list Content)
          (system_instruction : string) (tools : list Tool).

Let call := backoff_call contents system_instruction tools.
Let run := call_gemini_with_backoff env client contents system_instruction tools.

Lemma backoff_run_exhausted (n : Z) (w : World) :
  (0 < n)%Z ->
  (forall i, (i < Z.to_nat n)%nat ->
     exists e, models_generate_content env client call (calls_made w + i) = Raise e) ->
  exists w',
    run n w = (Ok None, w')
    /\ actions w' =
       (actions w ++ failed_rounds client call 0 (Z.to_nat n - 1)
        ++ [Generate client call])%list.
Proof.
  intros Hn Hfail. subst run. unfold call_gemini_with_backoff, range.
  destruct (Z.to_nat n) as [|m] eqn:Hm; [lia|].
  replace (S m - 1)%nat with m by lia.
  apply loop_exhausts_attempts.
  - lia.
  - intros i Hi. apply Hfail. lia.
Qed.

Lemma backoff_run_answered (n : Z) (k : nat) (response : GenerateContentResponse)
    (w : World) :
  (1 <= k)%nat -> (Z.of_nat k <= n)%Z ->
  succeeds_at env client call w k response ->
  exists w',
    run n w = (Ok (Some response), w')
    /\ actions w' =
       (actions w ++ failed_rounds client call 0 (k - 1)
        ++ [Generate client call])%list.
Proof.
  intros Hk Hn [Hfail Hok]. subst run. unfold call_gemini_with_backoff, range.
  replace (Z.to_nat n) with (S (k - 1) + (Z.to_nat n - k))%nat by lia.
  rewrite seq_app, map_app.
  apply loop_stops_at_first_answer.
  - lia.
  - exact Hfail.
  - exact Hok.
Qed.

End Backoff.

(** C1: when every call to the remote service raises, a run with
    [max_retries = n], [n] positive, makes exactly [n] calls and returns
    [None]; the delays it sleeps are [1, 2, 4, ..., 2^(n-2)], one after each
    attempt but the last: the run is [n - 1] rounds of a call followed by its
    sleep, then one last call. *)
Theorem backoff_exhausts_all_attempts (env : Environment) (client : Client)
    (contents : list Content) (system_instruction : string) (tools : list Tool)
    (n : Z) (w : World) :
  (0 < n)%Z ->
  always_raises env ->
  exists w',
    call_gemini_with_backoff env client contents system_instruction tools n w
    = (Ok None, w')
    /\ calls_made w' = (calls_made w + Z.to_nat n)%nat
    /\ sleeps w' = (sleeps w ++ backoff_delays (Z.to_nat n - 1))%list
    /\ actions w' =
       (actions w
        ++ failed_rounds client (backoff_call contents system_instruction tools)
             0 (Z.to_nat n - 1)
        ++ [Generate client (backoff_call contents system_instruction tools)])%list.
Proof.
  intros Hn Hdown.
  destruct (backoff_run_exhausted env client contents system_instruction tools n w Hn)
    as (w' & Hrun & Hact).
  { intros i _. apply Hdown. }
  exists w'. repeat split.
  - exact Hrun.
  - rewrite (calls_made_app w w' _ Hact), filter_app, length_app, failed_rounds_calls.
    cbn. lia.
  - rewrite (sleeps_app w w' _ Hact), flat_map_app, failed_rounds_sleeps.
    cbn. now rewrite app_nil_r.
  - exact Hact.
Qed.

(** C2: when the remote call raises on the first [k - 1] attempts and
    answers on attempt [k], [1 <= k <= max_retries], the run makes exactly [k]
    calls, the last action of the run being the [k]-th call, and returns the
    [k]-th response as it is, whatever it holds. *)
Theorem backoff_returns_first_answer (env : Environment) (client : Client)
    (contents : list Content) (system_instruction : string) (tools : list Tool)
    (max_retries : Z) (k : nat) (response : GenerateContentResponse) (w : World) :
  (1 <= k)%nat ->
  (Z.of_nat k <= max_retries)%Z ->
  succeeds_at env client (backoff_call contents system_instruction tools) w k response ->
  exists w',
    call_gemini_with_backoff env client contents system_instruction tools max_retries w
    = (Ok (Some response), w')
    /\ calls_made w' = (calls_made w + k)%nat
    /\ sleeps w' = (sleeps w ++ backoff_delays (k - 1))%list
    /\ actions w' =
       (actions w
        ++ failed_rounds client (backoff_call contents system_instruction tools)
             0 (k - 1)
        ++ [Generate client (backoff_call contents system_instruction tools)])%list.
Proof.
  intros Hk Hn Hsucc.
  destruct (backoff_run_answered env client contents system_instruction tools
              max_retries k response w Hk Hn Hsucc) as (w' & Hrun & Hact).
  exists w'. repeat split.
  - exact Hrun.
  - rewrite (calls_made_app w w' _ Hact), filter_app, length_app, failed_rounds_calls.
    cbn. lia.
  - rewrite (sleeps_app w w' _ Hact), flat_map_app, failed_rounds_sleeps.
    cbn. now rewrite app_nil_r.
  - exact Hact.
Qed.

(** C9: [call_gemini_with_backoff] never lets an exception out.  For every
    behaviour of the remote call and every [max_retries] it returns, and what
    it returns is [None] or a response the remote call gave. *)
Theorem backoff_never_raises (env : Environment) (client : Client)
    (contents : list Content) (system_instruction : string) (tools : list Tool)
    (max_retries : Z) (w : World) :
  exists r w',
    call_gemini_with_backoff env client contents system_instruction tools max_retries w
    = (Ok r, w')
    /\ (r = None
        \/ exists response i,
             r = Some response
             /\ models_generate_content env client
                  (backoff_call contents system_instruction tools) i = Ok response).
Proof.
  destruct (loop_returns env client contents system_instruction tools max_retries
              (range max_retries) w) as (r & w' & Hrun & Hfrom).
  exists r, w'. split; [exact Hrun|].
  destruct r as [response|]; [right | now left].
  destruct (Hfrom response eq_refl) as [i Hi]. eauto.
Qed.

(** C10: with [max_retries] zero or negative the loop has no turn: the
    function returns [None] at once and leaves the world as it found it, so
    it makes no call and sleeps no delay. *)
Theorem backoff_without_attempts (env : Environment) (client : Client)
    (contents : list Content) (system_instruction : string) (tools : list Tool)
    (max_retries : Z) (w : World) :
  (max_retries <= 0)%Z ->
  exists w',
    call_gemini_with_backoff env client contents system_instruction tools max_retries w
    = (Ok None, w')
    /\ w' = w
    /\ calls_made w' = calls_made w
    /\ sleeps w' = sleeps w.
Proof.
  intros H. exists w. unfold call_gemini_with_backoff.
  now rewrite (range_nonpositive max_retries H).
Qed.

(** ** Strings *)

Lemma prefix_append (x rest : string) : String.prefix x (x ++ rest) = true.
Proof.
  induction x as [|c x IH]; cbn.
  - destruct rest; reflexivity.
  - destruct (ascii_dec c c) as [_|Hne]; [exact IH | congruence].
Qed.

Lemma contains_append (x before after : string) :
  contains x (before ++ x ++ after) = true.
Proof.
  induction before as [|c before IH].
  - cbn [String.append]. destruct (x ++ after) eqn:E; cbn [contains];
      rewrite <- E, prefix_append; reflexivity.
  - cbn [String.append contains]. rewrite IH. apply orb_true_r.
Qed.


(** ** Runs of the handler *)

(** The handler, path by path. *)
Lemma home_paths (env : Environment) (w : World) :
  home env w =
  if negb (truthy_str (API_KEY env)) then
    (render_template_string env API_KEY_MISSING_PAGE, w)
  else
    match genai_Client env (API_KEY env) with
    | Raise e =>
        (render_template_string env (client_error_template e),
         after_client_init env w)
    | Ok client =>
        match from_text_error env with
        | Some e => (Raise e, after_client_init env w)
        | None =>
            match call_gemini_with_backoff env client (contents home_call)
                    system_prompt [google_search] default_max_retries
                    (after_client_init env w) with
            | (Ok (Some response), w') => (build_page env response, w')
            | (Ok None, w') => (render_template_string env API_CALL_FAILED_PAGE, w')
            | (Raise e, w') => (Raise e, w')
            end
        end
    end.
Proof.
  unfold home. destruct (negb (truthy_str (API_KEY env))); [reflexivity|].
  unfold new_client, Part_from_text.
  unfold bind, try_except, perform, lift, ret, after_client_init.
  cbv beta iota.
  destruct (genai_Client env (API_KEY env)) as [client|e]; cbv beta iota.
  - destruct (from_text_error env) as [e|]; [reflexivity|].
    change [{| parts := [{| part_text := user_query |}] |}] with (contents home_call).
    destruct (call_gemini_with_backoff _ _ _ _ _ _ _) as [[[response|]|e] w'];
      reflexivity.
  - destruct (render_template_string env (client_error_template e)); reflexivity.
Qed.

Lemma calls_made_after_client_init (env : Environment) (w : World) :
  calls_made (after_client_init env w) = calls_made w.
Proof.
  unfold calls_made, after_client_init. cbn [actions].
  rewrite filter_app. cbn. now rewrite app_nil_r.
Qed.

Lemma key_is_set (env : Environment) :
  API_KEY env <> EmptyString -> negb (truthy_str (API_KEY env)) = false.
Proof. destruct (API_KEY env); [congruence | reflexivity]. Qed.

Lemma key_is_missing (env : Environment) :
  environ env "GEMINI_API_KEY" = None
  \/ environ env "GEMINI_API_KEY" = Some EmptyString ->
  API_KEY env = EmptyString.
Proof. unfold API_KEY. now intros [-> | ->]. Qed.

Lemma home_without_key (env : Environment) (w : World) :
  API_KEY env = EmptyString ->
  home env w = (render_template_string env API_KEY_MISSING_PAGE, w).
Proof. intros H. rewrite home_paths, H. reflexivity. Qed.

Lemma home_without_client (env : Environment) (w : World) (e : Exception) :
  API_KEY env <> EmptyString ->
  genai_Client env (API_KEY env) = Raise e ->
  home env w =
  (render_template_string env (client_error_template e), after_client_init env w).
Proof.
  intros Hkey Hclient. rewrite home_paths, (key_is_set env Hkey), Hclient.
  reflexivity.
Qed.

Lemma home_without_part (env : Environment) (w : World) (client : Client)
    (e : Exception) :
  API_KEY env <> EmptyString ->
  genai_Client env (API_KEY env) = Ok client ->
  from_text_error env = Some e ->
  home env w = (Raise e, after_client_init env w).
Proof.
  intros Hkey Hclient Hpart.
  rewrite home_paths, (key_is_set env Hkey), Hclient, Hpart. reflexivity.
Qed.

Lemma missing_page_is_plain : plain_template API_KEY_MISSING_PAGE = true.
Proof. vm_compute. reflexivity. Qed.

Lemma failed_page_is_plain : plain_template API_CALL_FAILED_PAGE = true.
Proof. vm_compute. reflexivity. Qed.

Lemma serve_page (env : Environment) (w w' : World) (body : string) :
  home env w = (Ok body, w') -> serve env w = (Page body, w').
Proof. unfold serve. now intros ->. Qed.

Lemma serve_error (env : Environment) (w w' : World) (e : Exception) :
  home env w = (Raise e, w') -> serve env w = (InternalServerError e, w').
Proof. unfold serve. now intros ->. Qed.

(** ** The page builder *)

Lemma string_app_assoc (a b c : string) : (a ++ b) ++ c = a ++ b ++ c.
Proof. induction a as [|x a IH]; cbn; [reflexivity | now rewrite IH]. Qed.

Lemma head_ends_with_the_tag :
  html_template_head
  = substring 0 (String.length html_template_head - String.length pre_wrap_open)
      html_template_head
    ++ pre_wrap_open.
Proof. vm_compute. reflexivity. Qed.

Lemma mid_starts_with_the_closing_tag :
  html_template_mid
  = "</p>" ++ substring 4 (String.length html_template_mid - 4) html_template_mid.
Proof. vm_compute. reflexivity. Qed.

(** The answer text stands in the page between the tags of its block. *)
Lemma answer_block_in_page (answer_text html_sources : string) :
  contains (pre_wrap_open ++ answer_text ++ "</p>")
    (html_template answer_text html_sources) = true.
Proof.
  unfold html_template.
  rewrite head_ends_with_the_tag, mid_starts_with_the_closing_tag.
  set (before := substring _ _ html_template_head).
  set (after := substring _ _ html_template_mid).
  rewrite !string_app_assoc.
  rewrite <- (string_app_assoc answer_text "</p>").
  rewrite <- (string_app_assoc pre_wrap_open (answer_text ++ "</p>")).
  rewrite <- (string_app_assoc pre_wrap_open answer_text "</p>").
  rewrite string_app_assoc.
  apply contains_append.
Qed.

(** Without grounding metadata on the first candidate the attribute is not
    read and there are no sources. *)
Lemma sources_without_metadata (env : Environment)
    (response : GenerateContentResponse) :
  first_metadata response = None -> response_sources env response = Ok [].
Proof.
  unfold first_metadata, response_sources.
  destruct (candidates response) as [[|candidate0 rest]|]; try reflexivity.
  now intros ->.
Qed.

(** With grounding metadata the sources are what reading the attribute
    gives, or what it raises. *)
Lemma sources_with_metadata (env : Environment)
    (response : GenerateContentResponse) (metadata : GroundingMetadata) :
  first_metadata response = Some metadata ->
  response_sources env response =
  match grounding_attributions_attr env metadata with
  | Ok (Some attributions) => Ok (sources_of_attributions attributions)
  | Ok None => Ok []
  | Raise e => Raise e
  end.
Proof.
  unfold first_metadata, response_sources.
  destruct (candidates response) as [[|candidate0 rest]|]; try discriminate.
  intros ->.
  destruct (grounding_attributions_attr env metadata) as [[[|attr others]|]|e];
    reflexivity.
Qed.

(** ** The success page *)

(** C3: the citations of a grounded answer do not reach the page.  The
    service answers Fact X with one source that has a URI and a title.  The
    handler raises at line 69, before any call, because [Part.from_text] is
    given its text as a positional argument: the response is a 500 and no
    page is built.  And the page builder, given that answer, raises at line 97
    because the grounding metadata has no [grounding_attributions]. *)
Theorem grounded_answer_is_not_served :
  serve (env_answering fact_x) fresh_world
  = (InternalServerError type_error,
     {| actions := [ClientInit "secret"]; stdout := [] |})
  /\ status_code (fst (serve (env_answering fact_x) fresh_world)) = 500%Z
  /\ calls_made (snd (serve (env_answering fact_x) fresh_world)) = 0%nat
  /\ first_metadata fact_x = Some (grounded_by "https://a.example" "A")
  /\ build_page (env_answering fact_x) fact_x = Raise attribute_error.
Proof.
  split; [vm_compute; reflexivity|].
  split; [vm_compute; reflexivity|].
  split; [vm_compute; reflexivity|].
  split; reflexivity.
Qed.



(** ** The error pages *)

(** C6: when the credential variable is absent or empty the handler hands
    the missing-credential page to the template engine and does nothing else:
    the world is left as it was, with no remote call made and no client
    constructed.  The page holds no template syntax, so it is served as it
    is. *)
Theorem missing_credential_short_circuits (env : Environment) (w : World) :
  environ env "GEMINI_API_KEY" = None
  \/ environ env "GEMINI_API_KEY" = Some EmptyString ->
  home env w = (render_template_string env API_KEY_MISSING_PAGE, w)
  /\ calls_made (snd (home env w)) = calls_made w
  /\ clients_built (snd (home env w)) = clients_built w
  /\ (renders_plain env -> serve env w = (Page API_KEY_MISSING_PAGE, w)).
Proof.
  intros Hmissing. apply key_is_missing in Hmissing.
  pose proof (home_without_key env w Hmissing) as Hrun.
  rewrite Hrun. repeat split.
  intros Hplain. apply serve_page.
  now rewrite Hrun, (Hplain _ missing_page_is_plain).
Qed.

(** C7: the path of exhausted retries does not end in a 200.  With the
    credential set, the client built and a remote service that raises on every
    call, the handler raises at line 69, because [Part.from_text] is given its
    text as a positional argument: the retry loop is not entered, no call is
    made, nothing is logged, and the response is a 500. *)
Theorem exhausted_retries_are_not_reached :
  always_raises env_down
  /\ serve env_down fresh_world
     = (InternalServerError type_error,
        {| actions := [ClientInit "secret"]; stdout := [] |})
  /\ status_code (fst (serve env_down fresh_world)) = 500%Z
  /\ calls_made (snd (serve env_down fresh_world)) = 0%nat.
Proof.
  split; [intros client call i; eexists; reflexivity|].
  split; [vm_compute; reflexivity|].
  split; vm_compute; reflexivity.
Qed.

(** C8: the message of the constructor's exception is template source.
    When the client constructor raises, the handler catches the exception and
    puts its message into the source of the client-error page, which it then
    hands to the template engine; nothing is tried again and no remote call is
    made.  What is served is what the engine makes of that source: the page it
    returns, whether or not the message stands in it, and a 500 when it
    raises. *)
Theorem client_error_message_is_template_source (env : Environment) (w : World)
    (e : Exception) :
  API_KEY env <> EmptyString ->
  genai_Client env (API_KEY env) = Raise e ->
  home env w
  = (render_template_string env (client_error_template e), after_client_init env w)
  /\ contains (str_of_exception e) (client_error_template e) = true
  /\ calls_made (after_client_init env w) = calls_made w
  /\ (forall page,
        render_template_string env (client_error_template e) = Ok page ->
        serve env w = (Page page, after_client_init env w))
  /\ (forall x,
        render_template_string env (client_error_template e) = Raise x ->
        serve env w = (InternalServerError x, after_client_init env w)).
Proof.
  intros Hkey Hclient.
  pose proof (home_without_client env w e Hkey Hclient) as Hrun.
  split; [exact Hrun|]. split; [|split; [|split]].
  - unfold client_error_template. apply contains_append.
  - apply calls_made_after_client_init.
  - intros page Hpage. apply serve_page. now rewrite Hrun, Hpage.
  - intros x Hx. apply serve_error. now rewrite Hrun, Hx.
Qed.

(** ** The statements at the sample environments *)

Lemma env_down_always_raises : always_raises env_down.
Proof. intros client call i. eexists. reflexivity. Qed.

Lemma plain_only_renders_plain (env : Environment) :
  render_template_string env = plain_only_renderer -> renders_plain env.
Proof.
  intros Hr s Hs. rewrite Hr. unfold plain_only_renderer. now rewrite Hs.
Qed.

Lemma third_time_succeeds :
  succeeds_at env_third_time sample_client home_call fresh_world 3 fact_x.
Proof.
  split.
  - intros i Hi. exists (Exc "429 RESOURCE_EXHAUSTED").
    destruct i as [|[|i]]; [reflexivity | reflexivity | cbn in Hi; lia].
  - reflexivity.
Qed.


(** The service is down and three attempts are allowed: three calls, delays
    of 1 then 2, nothing after the third call. *)
Lemma backoff_exhausts_all_attempts_witness :
  (0 < 3)%Z
  /\ always_raises env_down
  /\ exists w',
       call_gemini_with_backoff env_down sample_client (contents home_call)
         system_prompt [google_search] 3 fresh_world = (Ok None, w')
       /\ calls_made w' = 3%nat
       /\ sleeps w' = [1; 2]%Z
       /\ actions w' =
          [Generate sample_client home_call; Sleep 1;
           Generate sample_client home_call; Sleep 2;
           Generate sample_client home_call].
Proof.
  split; [reflexivity|]. split; [exact env_down_always_raises|].
  exact (backoff_exhausts_all_attempts env_down sample_client (contents home_call)
           system_prompt [google_search] 3 fresh_world eq_refl
           env_down_always_raises).
Defined.

(** Two failures, then Fact X: three calls, and Fact X is returned. *)
Lemma backoff_returns_first_answer_witness :
  (1 <= 3)%nat
  /\ (Z.of_nat 3 <= 5)%Z
  /\ succeeds_at env_third_time sample_client home_call fresh_world 3 fact_x
  /\ exists w',
       call_gemini_with_backoff env_third_time sample_client (contents home_call)
         system_prompt [google_search] 5 fresh_world = (Ok (Some fact_x), w')
       /\ calls_made w' = 3%nat
       /\ sleeps w' = [1; 2]%Z
       /\ actions w' =
          [Generate sample_client home_call; Sleep 1;
           Generate sample_client home_call; Sleep 2;
           Generate sample_client home_call].
Proof.
  assert (H1 : (1 <= 3)%nat) by (repeat constructor).
  assert (H2 : (Z.of_nat 3 <= 5)%Z) by (vm_compute; discriminate).
  split; [exact H1|]. split; [exact H2|]. split; [exact third_time_succeeds|].
  exact (backoff_returns_first_answer env_third_time sample_client
           (contents home_call) system_prompt [google_search] 5 3 fact_x
           fresh_world H1 H2 third_time_succeeds).
Defined.

(** A ceiling of zero: nothing happens. *)
Lemma backoff_without_attempts_witness :
  (0 <= 0)%Z
  /\ exists w',
       call_gemini_with_backoff env_down sample_client (contents home_call)
         system_prompt [google_search] 0 fresh_world = (Ok None, w')
       /\ w' = fresh_world
       /\ calls_made w' = calls_made fresh_world
       /\ sleeps w' = sleeps fresh_world.
Proof.
  assert (H : (0 <= 0)%Z) by (vm_compute; discriminate).
  split; [exact H|].
  exact (backoff_without_attempts env_down sample_client (contents home_call)
           system_prompt [google_search] 0 fresh_world H).
Defined.



(** No credential: the page, and an untouched world. *)
Lemma missing_credential_short_circuits_witness :
  (environ env_no_key "GEMINI_API_KEY" = None
   \/ environ env_no_key "GEMINI_API_KEY" = Some EmptyString)
  /\ renders_plain env_no_key
  /\ serve env_no_key fresh_world = (Page API_KEY_MISSING_PAGE, fresh_world)
  /\ calls_made (snd (home env_no_key fresh_world)) = 0%nat
  /\ clients_built (snd (home env_no_key fresh_world)) = 0%nat.
Proof.
  assert (Hkey : environ env_no_key "GEMINI_API_KEY" = None
                 \/ environ env_no_key "GEMINI_API_KEY" = Some EmptyString)
    by (left; reflexivity).
  assert (Hplain : renders_plain env_no_key)
    by (apply plain_only_renders_plain; reflexivity).
  pose proof (missing_credential_short_circuits env_no_key fresh_world Hkey)
    as (_ & Hcalls & Hclients & Hserve).
  split; [exact Hkey|]. split; [exact Hplain|].
  split; [exact (Hserve Hplain)|]. split; [exact Hcalls | exact Hclients].
Defined.

(** The constructor raises with [{{ 7*7 }}] as message and the template
    engine evaluates the expression: the page shows 49, not the message. *)
Lemma client_error_message_is_template_source_witness :
  API_KEY env_expression_in_message <> EmptyString
  /\ genai_Client env_expression_in_message (API_KEY env_expression_in_message)
     = Raise forty_nine
  /\ client_error_template forty_nine
     = "<h1 style='color: #EF4444;'>Client Initialization Error</h1><p>{{ 7*7 }}</p>"
  /\ serve env_expression_in_message fresh_world
     = (Page forty_nine_page, {| actions := [ClientInit "secret"]; stdout := [] |})
  /\ contains (str_of_exception forty_nine) forty_nine_page = false.
Proof.
  assert (Hkey : API_KEY env_expression_in_message <> EmptyString)
    by (vm_compute; discriminate).
  assert (Hpage : render_template_string env_expression_in_message
                    (client_error_template forty_nine) = Ok forty_nine_page)
    by (vm_compute; reflexivity).
  pose proof (client_error_message_is_template_source env_expression_in_message
                fresh_world forty_nine Hkey eq_refl) as (_ & _ & _ & Hserve & _).
  split; [exact Hkey|]. split; [reflexivity|]. split; [reflexivity|].
  split; [exact (Hserve forty_nine_page Hpage) | vm_compute; reflexivity].
Defined.

(** ** Every run of call_gemini_with_backoff *)

(** Among the next [count] calls either all raise or one is the first to
    answer. *)
Lemma first_answer_or_none (env : Environment) (client : Client)
    (call : GenerateContentCall) (w : World) (count : nat) :
  raises_next env client call w count
  \/ exists k response,
       (1 <= k <= count)%nat /\ succeeds_at env client call w k response.
Proof.
  induction count as [|count IH].
  - left. intros i Hi. lia.
  - destruct IH as [Hall|(k & response & Hk & Hsucc)].
    + destruct (models_generate_content env client call (calls_made w + count))
        as [response|e] eqn:Hlast.
      * right. exists (S count), response. split; [lia|]. split.
        -- intros i Hi. apply Hall. lia.
        -- now replace (S count - 1)%nat with count by lia.
      * left. intros i Hi.
        destruct (Nat.eq_dec i count) as [->|Hne]; [eauto|].
        apply Hall. lia.
    + right. exists k, response. split; [lia | exact Hsucc].
Qed.

(** The first answer is unique. *)
Lemma first_answer_unique (env : Environment) (client : Client)
    (call : GenerateContentCall) (w : World) (k k' : nat)
    (response response' : GenerateContentResponse) :
  (1 <= k)%nat -> (1 <= k')%nat ->
  succeeds_at env client call w k response ->
  succeeds_at env client call w k' response' ->
  k = k' /\ response = response'.
Proof.
  intros Hk Hk' [Hfail Hok] [Hfail' Hok'].
  assert (Heq : k = k').
  { destruct (Nat.lt_trichotomy k k') as [Hlt|[Heq|Hgt]]; [|exact Heq|].
    - destruct (Hfail' (k - 1)%nat ltac:(lia)) as [e He]. congruence.
    - destruct (Hfail (k' - 1)%nat ltac:(lia)) as [e He]. congruence. }
  subst k'. split; [reflexivity | congruence].
Qed.

Lemma answered_not_all_raise (env : Environment) (client : Client)
    (call : GenerateContentCall) (w : World) (count k : nat)
    (response : GenerateContentResponse) :
  (1 <= k <= count)%nat ->
  succeeds_at env client call w k response ->
  ~ raises_next env client call w count.
Proof.
  intros Hk [_ Hok] Hall.
  destruct (Hall (k - 1)%nat ltac:(lia)) as [e He]. congruence.
Qed.

Lemma backoff_delays_S (count : nat) :
  backoff_delays (S count) = (backoff_delays count ++ [2 ^ Z.of_nat count]%Z)%list.
Proof.
  unfold backoff_delays. now rewrite seq_S, map_app.
Qed.

Lemma backoff_delays_sum (count : nat) :
  fold_right Z.add 0%Z (backoff_delays count) = (2 ^ Z.of_nat count - 1)%Z.
Proof.
  induction count as [|count IH].
  - reflexivity.
  - rewrite backoff_delays_S, fold_right_app. cbn [fold_right].
    rewrite Z.add_0_r.
    assert (Hshift : forall (l : list Z) (x : Z),
               fold_right Z.add x l = (fold_right Z.add 0 l + x)%Z).
    { induction l as [|y l IHl]; intros x; cbn; [lia | rewrite IHl; lia]. }
    rewrite Hshift, IH, Nat2Z.inj_succ, Z.pow_succ_r by lia. lia.
Qed.

Lemma total_sleep_app (w w' : World) (delays : list Z) :
  sleeps w' = (sleeps w ++ delays)%list ->
  total_sleep w' = (total_sleep w + fold_right Z.add 0 delays)%Z.
Proof.
  unfold total_sleep. intros ->.
  induction (sleeps w) as [|x l IH]; cbn; [lia | rewrite IH; lia].
Qed.

Lemma failed_rounds_no_client (client : Client) (call : GenerateContentCall)
    (count first : nat) :
  length (filter is_client_init (failed_rounds client call first count)) = 0%nat.
Proof.
  revert first; induction count as [|count IH]; intros first; [reflexivity|].
  rewrite failed_rounds_S. cbn. apply IH.
Qed.

Lemma rounds_then_call_counts (client : Client) (call : GenerateContentCall)
    (w w' : World) (j : nat) :
  actions w' =
  (actions w ++ failed_rounds client call 0 j ++ [Generate client call])%list ->
  calls_made w' = (calls_made w + S j)%nat
  /\ sleeps w' = (sleeps w ++ backoff_delays j)%list
  /\ clients_built w' = clients_built w.
Proof.
  intros Hact. split; [|split].
  - rewrite (calls_made_app w w' _ Hact), filter_app, length_app, failed_rounds_calls.
    cbn. lia.
  - rewrite (sleeps_app w w' _ Hact), flat_map_app, failed_rounds_sleeps.
    cbn. now rewrite app_nil_r.
  - rewrite (clients_built_app w w' _ Hact), filter_app, length_app.
    rewrite failed_rounds_no_client. cbn. lia.
Qed.

(** A run with a positive ceiling, whatever the remote service does: some
    failed rounds, then one more call, which answers or is the last allowed. *)
Lemma backoff_run_shape (env : Environment) (client : Client)
    (contents : list Content) (system_instruction : string) (tools : list Tool)
    (n : Z) (w : World) :
  (0 < n)%Z ->
  exists j r w',
    (j < Z.to_nat n)%nat
    /\ call_gemini_with_backoff env client contents system_instruction tools n w
       = (Ok r, w')
    /\ actions w' =
       (actions w
        ++ failed_rounds client (backoff_call contents system_instruction tools) 0 j
        ++ [Generate client (backoff_call contents system_instruction tools)])%list
    /\ ((exists response,
           r = Some response
           /\ succeeds_at env client
                (backoff_call contents system_instruction tools) w (S j) response)
        \/ (r = None /\ S j = Z.to_nat n
            /\ raises_next env client
                 (backoff_call contents system_instruction tools) w (Z.to_nat n))).
Proof.
  intros Hn.
  destruct (first_answer_or_none env client
              (backoff_call contents system_instruction tools) w (Z.to_nat n))
    as [Hall|(k & response & Hk & Hsucc)].
  - destruct (backoff_run_exhausted env client contents system_instruction tools
                n w Hn Hall) as (w' & Hrun & Hact).
    exists (Z.to_nat n - 1)%nat, None, w'.
    split; [lia|]. split; [exact Hrun|]. split; [exact Hact|].
    right. split; [reflexivity|]. split; [lia | exact Hall].
  - destruct (backoff_run_answered env client contents system_instruction tools
                n k response w ltac:(lia) ltac:(lia) Hsucc) as (w' & Hrun & Hact).
    exists (k - 1)%nat, (Some response), w'.
    split; [lia|]. split; [exact Hrun|]. split; [exact Hact|].
    left. exists response. split; [reflexivity|].
    now replace (S (k - 1)) with k by lia.
Qed.

(** ** The log of a run *)

Section AttemptLog.

Variables (env : Environment) (client : Client) (contents : list Content)
          (system_instruction : string) (tools : list Tool)
          (max_retries : Z).

Let call := backoff_call contents system_instruction tools.
Let body := attempt_body env client contents system_instruction tools max_retries.

Lemma attempt_answered_log (i : nat) (w : World) (response : GenerateContentResponse) :
  models_generate_content env client call (calls_made w) = Ok response ->
  stdout (snd (body (Z.of_nat i) w))
  = (stdout w ++ [attempting_line i; "API call successful."])%list.
Proof.
  intros H. subst body call.
  unfold attempt_body, try_except, bind, print, generate_content, ret, backoff_call,
    attempting_line in *.
  cbn. unfold calls_made in *. cbn. rewrite H. cbn.
  now rewrite <- app_assoc.
Qed.

Lemma attempt_retried_log (i : nat) (w : World) (e : Exception) :
  models_generate_content env client call (calls_made w) = Raise e ->
  (Z.of_nat i < max_retries - 1)%Z ->
  stdout (snd (body (Z.of_nat i) w))
  = (stdout w ++ [attempting_line i; failed_line i e; waiting_line i])%list.
Proof.
  intros H Hlt. subst body call.
  unfold attempt_body, try_except, bind, print, generate_content, ret,
    time_sleep, perform, backoff_call, attempting_line, failed_line, waiting_line in *.
  cbn. unfold calls_made in *. cbn. rewrite H. cbn.
  apply Z.ltb_lt in Hlt. rewrite Hlt. cbn.
  now rewrite <- !app_assoc.
Qed.

Lemma attempt_gave_up_log (i : nat) (w : World) (e : Exception) :
  models_generate_content env client call (calls_made w) = Raise e ->
  (max_retries - 1 <= Z.of_nat i)%Z ->
  stdout (snd (body (Z.of_nat i) w))
  = (stdout w ++ [attempting_line i; failed_line i e])%list.
Proof.
  intros H Hge. subst body call.
  unfold attempt_body, try_except, bind, print, generate_content, ret, backoff_call,
    attempting_line, failed_line in *.
  cbn. unfold calls_made in *. cbn. rewrite H. cbn.
  apply Z.ltb_ge in Hge. rewrite Hge. cbn.
  now rewrite <- !app_assoc.
Qed.

Lemma failed_rounds_log_S (errs : nat -> Exception) (first count : nat) :
  failed_rounds_log errs first (S count) =
  ([attempting_line first; failed_line first (errs first); waiting_line first]
   ++ failed_rounds_log errs (S first) count)%list.
Proof. reflexivity. Qed.

Lemma loop_log_answered (errs : nat -> Exception)
    (response : GenerateContentResponse) :
  forall (j a : nat) (rest : list Z) (w : World),
    (Z.of_nat (a + j) < max_retries)%Z ->
    (forall i, (i < j)%nat ->
       models_generate_content env client call (calls_made w + i) = Raise (errs (a + i)%nat)) ->
    models_generate_content env client call (calls_made w + j) = Ok response ->
    stdout (snd (for_each body (map Z.of_nat (seq a (S j)) ++ rest) w))
    = (stdout w ++ failed_rounds_log errs a j
       ++ [attempting_line (a + j); "API call successful."])%list.
Proof.
  induction j as [|j IH]; intros a rest w Hlt Hfail Hok.
  - rewrite Nat.add_0_r in *.
    destruct (attempt_answered env client contents system_instruction tools
                max_retries (Z.of_nat a) w response Hok) as (w' & Hrun & _).
    pose proof (attempt_answered_log a w response Hok) as Hlog.
    cbn [seq map app]. unfold body in *. rewrite for_each_cons.
    rewrite Hrun in *. exact Hlog.
  - pose proof (Hfail 0%nat ltac:(lia)) as He. rewrite !Nat.add_0_r in He.
    destruct (attempt_retried env client contents system_instruction tools
                max_retries (Z.of_nat a) w _ He ltac:(lia)) as (w1 & Hrun & Hact).
    pose proof (attempt_retried_log a w _ He ltac:(lia)) as Hlog.
    assert (Hcalls : calls_made w1 = S (calls_made w)).
    { rewrite (calls_made_app w w1 _ Hact). cbn. lia. }
    change (map Z.of_nat (seq a (S (S j))) ++ rest)%list
      with (Z.of_nat a :: (map Z.of_nat (seq (S a) (S j)) ++ rest))%list.
    unfold body in *. rewrite for_each_cons. rewrite Hrun in *. cbn [snd] in Hlog.
    rewrite (IH (S a) rest w1).
    + rewrite Hlog, failed_rounds_log_S, <- !app_assoc.
      now replace (S a + j)%nat with (a + S j)%nat by lia.
    + lia.
    + intros i Hi. rewrite Hcalls.
      replace (S (calls_made w) + i)%nat with (calls_made w + S i)%nat by lia.
      replace (S a + i)%nat with (a + S i)%nat by lia.
      apply Hfail. lia.
    + rewrite Hcalls.
      replace (S (calls_made w) + j)%nat with (calls_made w + S j)%nat by lia.
      exact Hok.
Qed.

Lemma loop_log_exhausted (errs : nat -> Exception) :
  forall (m a : nat) (w : World),
    Z.of_nat (a + m) = (max_retries - 1)%Z ->
    (forall i, (i <= m)%nat ->
       models_generate_content env client call (calls_made w + i) = Raise (errs (a + i)%nat)) ->
    stdout (snd (for_each body (map Z.of_nat (seq a (S m))) w))
    = (stdout w ++ failed_rounds_log errs a m
       ++ [attempting_line (a + m); failed_line (a + m) (errs (a + m)%nat)])%list.
Proof.
  induction m as [|m IH]; intros a w Hlast Hfail.
  - pose proof (Hfail 0%nat ltac:(lia)) as He. rewrite !Nat.add_0_r in *.
    destruct (attempt_gave_up env client contents system_instruction tools
                max_retries (Z.of_nat a) w _ He ltac:(lia)) as (w' & Hrun & _).
    pose proof (attempt_gave_up_log a w _ He ltac:(lia)) as Hlog.
    cbn [seq map]. unfold body in *. rewrite for_each_cons.
    rewrite Hrun in *. exact Hlog.
  - pose proof (Hfail 0%nat ltac:(lia)) as He. rewrite !Nat.add_0_r in He.
    destruct (attempt_retried env client contents system_instruction tools
                max_retries (Z.of_nat a) w _ He ltac:(lia)) as (w1 & Hrun & Hact).
    pose proof (attempt_retried_log a w _ He ltac:(lia)) as Hlog.
    assert (Hcalls : calls_made w1 = S (calls_made w)).
    { rewrite (calls_made_app w w1 _ Hact). cbn. lia. }
    change (map Z.of_nat (seq a (S (S m))))
      with (Z.of_nat a :: map Z.of_nat (seq (S a) (S m))).
    unfold body in *. rewrite for_each_cons. rewrite Hrun in *. cbn [snd] in Hlog.
    rewrite (IH (S a) w1).
    + rewrite Hlog, failed_rounds_log_S, <- !app_assoc.
      now replace (S a + m)%nat with (a + S m)%nat by lia.
    + lia.
    + intros i Hi. rewrite Hcalls.
      replace (S (calls_made w) + i)%nat with (calls_made w + S i)%nat by lia.
      replace (S a + i)%nat with (a + S i)%nat by lia.
      apply Hfail. lia.
Qed.

End AttemptLog.

Lemma world_eq (w1 w2 : World) :
  actions w1 = actions w2 -> stdout w1 = stdout w2 -> w1 = w2.
Proof. destruct w1, w2; cbn; now intros -> ->. Qed.

Lemma backoff_log_exhausted_run (env : Environment) (client : Client)
    (contents : list Content) (system_instruction : string) (tools : list Tool)
    (n : Z) (errs : nat -> Exception) (w : World) :
  (0 < n)%Z ->
  (forall i, (i < Z.to_nat n)%nat ->
     models_generate_content env client
       (backoff_call contents system_instruction tools) (calls_made w + i)
     = Raise (errs i)) ->
  stdout (snd (call_gemini_with_backoff env client contents system_instruction
                 tools n w))
  = (stdout w ++ failed_rounds_log errs 0 (Z.to_nat n - 1)
     ++ [attempting_line (Z.to_nat n - 1);
         failed_line (Z.to_nat n - 1) (errs (Z.to_nat n - 1)%nat)])%list.
Proof.
  intros Hn Hfail. unfold call_gemini_with_backoff, range.
  destruct (Z.to_nat n) as [|m] eqn:Hm; [lia|].
  replace (S m - 1)%nat with m by lia.
  apply (loop_log_exhausted env client contents system_instruction tools n errs m 0).
  - lia.
  - intros i Hi. apply Hfail. lia.
Qed.

Lemma backoff_log_answered_run (env : Environment) (client : Client)
    (contents : list Content) (system_instruction : string) (tools : list Tool)
    (n : Z) (k : nat) (errs : nat -> Exception)
    (response : GenerateContentResponse) (w : World) :
  (1 <= k)%nat -> (Z.of_nat k <= n)%Z ->
  (forall i, (i < k - 1)%nat ->
     models_generate_content env client
       (backoff_call contents system_instruction tools) (calls_made w + i)
     = Raise (errs i)) ->
  models_generate_content env client
    (backoff_call contents system_instruction tools) (calls_made w + (k - 1))
  = Ok response ->
  stdout (snd (call_gemini_with_backoff env client contents system_instruction
                 tools n w))
  = (stdout w ++ failed_rounds_log errs 0 (k - 1)
     ++ [attempting_line (k - 1); "API call successful."])%list.
Proof.
  intros Hk Hn Hfail Hok. unfold call_gemini_with_backoff, range.
  replace (Z.to_nat n) with (S (k - 1) + (Z.to_nat n - k))%nat by lia.
  rewrite seq_app, map_app.
  apply (loop_log_answered env client contents system_instruction tools n errs
           response (k - 1) 0).
  - lia.
  - exact Hfail.
  - exact Hok.
Qed.

(** What the remote service raises at each call counted from [w], and an
    exception without message where it answers. *)
Lemma raised_exceptions (env : Environment) (client : Client)
    (call : GenerateContentCall) (w : World) (count : nat) :
  raises_next env client call w count ->
  exists errs : nat -> Exception,
    forall i, (i < count)%nat ->
      models_generate_content env client call (calls_made w + i) = Raise (errs i).
Proof.
  intros Hall.
  exists (fun i => match models_generate_content env client call (calls_made w + i) with
                   | Raise e => e
                   | Ok _ => Exc EmptyString
                   end).
  intros i Hi. destruct (Hall i Hi) as [e He]. now rewrite He.
Qed.

(** ** More on call_gemini_with_backoff *)

(** X1: with a positive ceiling and whatever the remote service does, a run
    is some rounds of a call followed by its sleep, [j] of them with
    [j < max_retries], then one more call: between 1 and [max_retries] calls,
    one sleep fewer than calls with the delays [1, 2, ..., 2^(j-1)], never a
    sleep at the end, and no client constructed. *)
Theorem backoff_run_is_rounds_then_a_call (env : Environment) (client : Client)
    (contents : list Content) (system_instruction : string) (tools : list Tool)
    (max_retries : Z) (w : World) :
  (0 < max_retries)%Z ->
  exists j r w',
    (j < Z.to_nat max_retries)%nat
    /\ call_gemini_with_backoff env client contents system_instruction tools
         max_retries w = (Ok r, w')
    /\ actions w' =
       (actions w
        ++ failed_rounds client (backoff_call contents system_instruction tools) 0 j
        ++ [Generate client (backoff_call contents system_instruction tools)])%list
    /\ calls_made w' = (calls_made w + S j)%nat
    /\ sleeps w' = (sleeps w ++ backoff_delays j)%list
    /\ clients_built w' = clients_built w.
Proof.
  intros Hn.
  destruct (backoff_run_shape env client contents system_instruction tools
              max_retries w Hn) as (j & r & w' & Hj & Hrun & Hact & _).
  exists j, r, w'. split; [exact Hj|]. split; [exact Hrun|]. split; [exact Hact|].
  exact (rounds_then_call_counts client _ w w' j Hact).
Qed.

(** X2: what the function returns says what the remote service did.  It
    returns [None] exactly when each of the [max_retries] calls it may make
    raises, and it returns a response exactly when that response is the first
    answer of the service and comes within [max_retries] calls. *)
Theorem backoff_result_characterised (env : Environment) (client : Client)
    (contents : list Content) (system_instruction : string) (tools : list Tool)
    (max_retries : Z) (w : World) :
  (fst (call_gemini_with_backoff env client contents system_instruction tools
          max_retries w) = Ok None
   <-> raises_next env client (backoff_call contents system_instruction tools) w
         (Z.to_nat max_retries))
  /\ (forall response,
        fst (call_gemini_with_backoff env client contents system_instruction tools
               max_retries w) = Ok (Some response)
        <-> exists k,
              (1 <= k <= Z.to_nat max_retries)%nat
              /\ succeeds_at env client
                   (backoff_call contents system_instruction tools) w k response).
Proof.
  destruct (Z.lt_ge_cases 0 max_retries) as [Hn|Hn].
  - destruct (first_answer_or_none env client
                (backoff_call contents system_instruction tools) w
                (Z.to_nat max_retries)) as [Hall|(k & response0 & Hk & Hsucc)].
    + destruct (backoff_run_exhausted env client contents system_instruction tools
                  max_retries w Hn Hall) as (w' & Hrun & _).
      rewrite Hrun. cbn [fst]. split.
      * split; [intros _; exact Hall | reflexivity].
      * intros response. split; [discriminate|].
        intros (k & Hk & Hsucc).
        destruct (answered_not_all_raise env client _ w _ k response Hk Hsucc Hall).
    + destruct (backoff_run_answered env client contents system_instruction tools
                  max_retries k response0 w ltac:(lia) ltac:(lia) Hsucc)
        as (w' & Hrun & _).
      rewrite Hrun. cbn [fst]. split.
      * split; [discriminate|].
        intros Hall.
        destruct (answered_not_all_raise env client _ w _ k response0 Hk Hsucc Hall).
      * intros response. split.
        -- intros [= <-]. now exists k.
        -- intros (k' & Hk' & Hsucc').
           destruct (first_answer_unique env client _ w k k' response0 response
                       ltac:(lia) ltac:(lia) Hsucc Hsucc') as [_ ->].
           reflexivity.
  - unfold call_gemini_with_backoff. rewrite (range_nonpositive max_retries Hn).
    replace (Z.to_nat max_retries) with 0%nat by lia. cbn. split.
    + split; [intros _ i Hi; lia | reflexivity].
    + intros response. split; [discriminate | intros (k & Hk & _); lia].
Qed.

(** X3: the time a run sleeps.  With a positive ceiling [n] a run never
    sleeps more than [2^(n-1) - 1] seconds in all, and it sleeps exactly that
    long when every call raises. *)
Theorem backoff_total_sleep (env : Environment) (client : Client)
    (contents : list Content) (system_instruction : string) (tools : list Tool)
    (n : Z) (w : World) :
  (0 < n)%Z ->
  (total_sleep (snd (call_gemini_with_backoff env client contents
                       system_instruction tools n w))
   <= total_sleep w + (2 ^ (n - 1) - 1))%Z
  /\ (raises_next env client (backoff_call contents system_instruction tools) w
        (Z.to_nat n) ->
      total_sleep (snd (call_gemini_with_backoff env client contents
                          system_instruction tools n w))
      = (total_sleep w + (2 ^ (n - 1) - 1))%Z).
Proof.
  intros Hn. split.
  - destruct (backoff_run_shape env client contents system_instruction tools n w Hn)
      as (j & r & w' & Hj & Hrun & Hact & _).
    rewrite Hrun. cbn [snd].
    destruct (rounds_then_call_counts client _ w w' j Hact) as (_ & Hsleeps & _).
    rewrite (total_sleep_app w w' _ Hsleeps), backoff_delays_sum.
    assert (2 ^ Z.of_nat j <= 2 ^ (n - 1))%Z by (apply Z.pow_le_mono_r; lia).
    lia.
  - intros Hall.
    destruct (backoff_run_exhausted env client contents system_instruction tools
                n w Hn Hall) as (w' & Hrun & Hact).
    rewrite Hrun. cbn [snd].
    destruct (rounds_then_call_counts client _ w w' _ Hact) as (_ & Hsleeps & _).
    rewrite (total_sleep_app w w' _ Hsleeps), backoff_delays_sum.
    now replace (Z.of_nat (Z.to_nat n - 1)) with (n - 1)%Z by lia.
Qed.

(** X4: once the first answer is within the ceiling, the ceiling does not
    matter: two runs from the same world whose ceilings both reach the first
    answer return the same response and leave the same world, calls, sleeps
    and log alike. *)
Theorem backoff_ceiling_beyond_first_answer (env : Environment) (client : Client)
    (contents : list Content) (system_instruction : string) (tools : list Tool)
    (n n' : Z) (k : nat) (response : GenerateContentResponse) (w : World) :
  (1 <= k)%nat ->
  (Z.of_nat k <= n)%Z ->
  (Z.of_nat k <= n')%Z ->
  succeeds_at env client (backoff_call contents system_instruction tools) w k response ->
  call_gemini_with_backoff env client contents system_instruction tools n w
  = call_gemini_with_backoff env client contents system_instruction tools n' w
  /\ fst (call_gemini_with_backoff env client contents system_instruction tools n w)
     = Ok (Some response).
Proof.
  intros Hk Hn Hn' Hsucc.
  destruct (backoff_run_answered env client contents system_instruction tools
              n k response w Hk Hn Hsucc) as (w1 & Hrun1 & Hact1).
  destruct (backoff_run_answered env client contents system_instruction tools
              n' k response w Hk Hn' Hsucc) as (w2 & Hrun2 & Hact2).
  destruct Hsucc as [Hfail Hok].
  destruct (raised_exceptions env client _ w (k - 1) Hfail) as [errs Herrs].
  pose proof (backoff_log_answered_run env client contents system_instruction tools
                n k errs response w Hk Hn Herrs Hok) as Hlog1.
  pose proof (backoff_log_answered_run env client contents system_instruction tools
                n' k errs response w Hk Hn' Herrs Hok) as Hlog2.
  rewrite Hrun1 in *. rewrite Hrun2 in *. cbn [snd fst] in *.
  split; [|reflexivity].
  f_equal. apply world_eq; congruence.
Qed.

(** X5: the log of a run in which every call raises.  Each attempt is
    announced with its number, counted from 1, each failure is logged with
    that number and the message of the exception, and each sleep is announced
    with its length; after the last failure nothing more is printed. *)
Theorem backoff_log_when_exhausted (env : Environment) (client : Client)
    (contents : list Content) (system_instruction : string) (tools : list Tool)
    (n : Z) (errs : nat -> Exception) (w : World) :
  (0 < n)%Z ->
  (forall i, (i < Z.to_nat n)%nat ->
     models_generate_content env client
       (backoff_call contents system_instruction tools) (calls_made w + i)
     = Raise (errs i)) ->
  stdout (snd (call_gemini_with_backoff env client contents system_instruction
                 tools n w))
  = (stdout w ++ failed_rounds_log errs 0 (Z.to_nat n - 1)
     ++ [attempting_line (Z.to_nat n - 1);
         failed_line (Z.to_nat n - 1) (errs (Z.to_nat n - 1)%nat)])%list
  /\ forall i, (i < Z.to_nat n)%nat ->
       In (failed_line i (errs i))
          (stdout (snd (call_gemini_with_backoff env client contents
                          system_instruction tools n w))).
Proof.
  intros Hn Hfail.
  pose proof (backoff_log_exhausted_run env client contents system_instruction
                tools n errs w Hn Hfail) as Hlog.
  split; [exact Hlog|].
  intros i Hi. rewrite Hlog. apply in_or_app. right.
  destruct (Nat.eq_dec i (Z.to_nat n - 1)) as [->|Hne].
  - apply in_or_app. right. right. now left.
  - apply in_or_app. left. unfold failed_rounds_log.
    apply in_flat_map. exists i. split.
    + apply in_seq. lia.
    + right. now left.
Qed.

(** X6: the log of a run that is answered at attempt [k].  The [k - 1]
    failures are logged as in a run without answer, then attempt [k] is
    announced and its success is the last line; the response itself is not
    printed. *)
Theorem backoff_log_when_answered (env : Environment) (client : Client)
    (contents : list Content) (system_instruction : string) (tools : list Tool)
    (n : Z) (k : nat) (errs : nat -> Exception)
    (response : GenerateContentResponse) (w : World) :
  (1 <= k)%nat ->
  (Z.of_nat k <= n)%Z ->
  (forall i, (i < k - 1)%nat ->
     models_generate_content env client
       (backoff_call contents system_instruction tools) (calls_made w + i)
     = Raise (errs i)) ->
  models_generate_content env client
    (backoff_call contents system_instruction tools) (calls_made w + (k - 1))
  = Ok response ->
  stdout (snd (call_gemini_with_backoff env client contents system_instruction
                 tools n w))
  = (stdout w ++ failed_rounds_log errs 0 (k - 1)
     ++ [attempting_line (k - 1); "API call successful."])%list
  /\ length (stdout (snd (call_gemini_with_backoff env client contents
                            system_instruction tools n w)))
     = (length (stdout w) + 3 * (k - 1) + 2)%nat.
Proof.
  intros Hk Hn Hfail Hok.
  pose proof (backoff_log_answered_run env client contents system_instruction
                tools n k errs response w Hk Hn Hfail Hok) as Hlog.
  split; [exact Hlog|].
  rewrite Hlog, !length_app. cbn [length].
  assert (Hlen : forall count first,
             length (failed_rounds_log errs first count) = (3 * count)%nat).
  { induction count as [|count IH]; intros first; [reflexivity|].
    rewrite failed_rounds_log_S, length_app, IH. cbn [length]. lia. }
  rewrite Hlen. lia.
Qed.

(** ** Every run of the handler *)

Lemma request_counts (client : Client) (key : string) (w w' : World) (j : nat) :
  actions w' =
  (actions w ++ [ClientInit key] ++ failed_rounds client home_call 0 j
   ++ [Generate client home_call])%list ->
  calls_made w' = (calls_made w + S j)%nat
  /\ sleeps w' = (sleeps w ++ backoff_delays j)%list
  /\ clients_built w' = S (clients_built w).
Proof.
  intros Hact. split; [|split].
  - rewrite (calls_made_app w w' _ Hact). cbn [app filter is_generate].
    rewrite filter_app, length_app, failed_rounds_calls. cbn. lia.
  - rewrite (sleeps_app w w' _ Hact). cbn [app flat_map].
    rewrite flat_map_app, failed_rounds_sleeps. cbn. now rewrite app_nil_r.
  - rewrite (clients_built_app w w' _ Hact). cbn [app filter is_client_init length].
    rewrite filter_app, length_app, failed_rounds_no_client. cbn. lia.
Qed.

Lemma after_client_init_counts (env : Environment) (w : World) :
  sleeps (after_client_init env w) = sleeps w
  /\ clients_built (after_client_init env w) = S (clients_built w).
Proof.
  split.
  - rewrite (sleeps_app w (after_client_init env w) [ClientInit (API_KEY env)] eq_refl).
    cbn. now rewrite app_nil_r.
  - rewrite (clients_built_app w (after_client_init env w)
               [ClientInit (API_KEY env)] eq_refl).
    cbn. lia.
Qed.

Lemma succeeds_after_client_init (env : Environment) (client : Client)
    (call : GenerateContentCall) (w : World) (k : nat)
    (response : GenerateContentResponse) :
  succeeds_at env client call (after_client_init env w) k response
  <-> succeeds_at env client call w k response.
Proof.
  unfold succeeds_at. now rewrite calls_made_after_client_init.
Qed.

Lemma raises_after_client_init (env : Environment) (client : Client)
    (call : GenerateContentCall) (w : World) (count : nat) :
  raises_next env client call (after_client_init env w) count
  <-> raises_next env client call w count.
Proof.
  unfold raises_next. now rewrite calls_made_after_client_init.
Qed.

(** The paths of the handler and what each leaves behind. *)
Lemma home_run_cases (env : Environment) (w : World) :
  (API_KEY env = EmptyString
   /\ home env w = (render_template_string env API_KEY_MISSING_PAGE, w))
  \/ (API_KEY env <> EmptyString
      /\ exists e,
           genai_Client env (API_KEY env) = Raise e
           /\ home env w
              = (render_template_string env (client_error_template e),
                 after_client_init env w))
  \/ (API_KEY env <> EmptyString
      /\ exists client e,
           genai_Client env (API_KEY env) = Ok client
           /\ from_text_error env = Some e
           /\ home env w = (Raise e, after_client_init env w))
  \/ (API_KEY env <> EmptyString
      /\ exists client j w',
           genai_Client env (API_KEY env) = Ok client
           /\ from_text_error env = None
           /\ (j < 5)%nat
           /\ actions w' =
              (actions w ++ [ClientInit (API_KEY env)]
               ++ failed_rounds client home_call 0 j
               ++ [Generate client home_call])%list
           /\ ((exists response,
                  succeeds_at env client home_call w (S j) response
                  /\ home env w = (build_page env response, w'))
               \/ (j = 4%nat
                   /\ raises_next env client home_call w 5
                   /\ home env w
                      = (render_template_string env API_CALL_FAILED_PAGE, w')))).
Proof.
  destruct (string_dec (API_KEY env) EmptyString) as [Hkey|Hkey].
  - left. split; [exact Hkey | exact (home_without_key env w Hkey)].
  - right. destruct (genai_Client env (API_KEY env)) as [client|e] eqn:Hclient.
    + right. destruct (from_text_error env) as [e|] eqn:Hpart.
      * left. split; [exact Hkey|]. exists client, e.
        split; [reflexivity|]. split; [reflexivity|].
        exact (home_without_part env w client e Hkey Hclient Hpart).
      * right. split; [exact Hkey|].
        destruct (backoff_run_shape env client (contents home_call) system_prompt
                    [google_search] default_max_retries (after_client_init env w)
                    eq_refl) as (j & r & w' & Hj & Hrun & Hact & Hr).
        exists client, j, w'. split; [reflexivity|]. split; [reflexivity|].
        split; [exact Hj|]. split.
        { rewrite Hact. cbn [after_client_init actions]. now rewrite <- app_assoc. }
        destruct Hr as [(response & -> & Hsucc)|(-> & Hlast & Hall)].
        -- left. exists response. split.
           ++ exact (proj1 (succeeds_after_client_init env client _ w _ _) Hsucc).
           ++ rewrite home_paths, (key_is_set env Hkey), Hclient, Hpart, Hrun.
              reflexivity.
        -- right. split; [cbn in Hlast; lia|]. split.
           ++ exact (proj1 (raises_after_client_init env client _ w _) Hall).
           ++ rewrite home_paths, (key_is_set env Hkey), Hclient, Hpart, Hrun.
              reflexivity.
    + left. split; [exact Hkey|]. exists e. split; [reflexivity|].
      exact (home_without_client env w e Hkey Hclient).
Qed.

Lemma page_builder_raises_from_the_attribute (env : Environment)
    (response : GenerateContentResponse) (e : Exception) :
  build_page env response = Raise e ->
  exists metadata,
    first_metadata response = Some metadata
    /\ grounding_attributions_attr env metadata = Raise e.
Proof.
  unfold build_page. intros Hraise.
  destruct (first_metadata response) as [metadata|] eqn:Hmeta.
  - exists metadata. split; [reflexivity|].
    rewrite (sources_with_metadata env response metadata Hmeta) in Hraise.
    destruct (grounding_attributions_attr env metadata) as [[attributions|]|e'];
      [discriminate | discriminate | congruence].
  - rewrite (sources_without_metadata env response Hmeta) in Hraise. discriminate.
Qed.

(** ** More on home *)

(** X7: the handler takes one of five paths, decided by the credential, the
    client constructor, [Part.from_text] and the remote service.  Without
    credential: the missing-credential page, the world untouched.
    Constructor raising: the client-error page, no remote call.
    [Part.from_text] raising: its exception leaves the handler, no remote
    call.  Five calls raising: the call-failed page after exactly five calls
    and sleeps of 1, 2, 4 and 8 seconds.  A first answer at call [k <= 5]:
    what the page builder makes of that answer, after exactly [k] calls.  The
    conditions exclude one another: the first three by what they say of the
    credential, the constructor and [from_text]; the last two because a
    service that raises on five calls gives no answer within five. *)
Theorem home_takes_one_of_five_paths (env : Environment) (w : World) :
  ((API_KEY env = EmptyString
    /\ home env w = (render_template_string env API_KEY_MISSING_PAGE, w))
   \/ (API_KEY env <> EmptyString
       /\ exists e,
            genai_Client env (API_KEY env) = Raise e
            /\ home env w
               = (render_template_string env (client_error_template e),
                  after_client_init env w))
   \/ (API_KEY env <> EmptyString
       /\ exists client e,
            genai_Client env (API_KEY env) = Ok client
            /\ from_text_error env = Some e
            /\ home env w = (Raise e, after_client_init env w))
   \/ (API_KEY env <> EmptyString
       /\ exists client w',
            genai_Client env (API_KEY env) = Ok client
            /\ from_text_error env = None
            /\ raises_next env client home_call w 5
            /\ home env w = (render_template_string env API_CALL_FAILED_PAGE, w')
            /\ calls_made w' = (calls_made w + 5)%nat
            /\ sleeps w' = (sleeps w ++ [1; 2; 4; 8]%Z)%list)
   \/ (API_KEY env <> EmptyString
       /\ exists client k response w',
            genai_Client env (API_KEY env) = Ok client
            /\ from_text_error env = None
            /\ (1 <= k <= 5)%nat
            /\ succeeds_at env client home_call w k response
            /\ home env w = (build_page env response, w')
            /\ calls_made w' = (calls_made w + k)%nat
            /\ sleeps w' = (sleeps w ++ backoff_delays (k - 1))%list))
  /\ (forall client k response,
        raises_next env client home_call w 5 ->
        (1 <= k <= 5)%nat ->
        ~ succeeds_at env client home_call w k response).
Proof.
  split.
  - destruct (home_run_cases env w)
      as [Hmissing|[Hclient|[Hpart
         |(Hkey & client & j & w' & Hclient & Hpart & Hj & Hact & Hend)]]].
    + left. exact Hmissing.
    + right. left. exact Hclient.
    + right. right. left. exact Hpart.
    + destruct (request_counts client _ w w' j Hact) as (Hcalls & Hsleeps & _).
      destruct Hend as [(response & Hsucc & Hrun)|(-> & Hall & Hrun)].
      * right. right. right. right. split; [exact Hkey|].
        exists client, (S j), response, w'.
        split; [exact Hclient|]. split; [exact Hpart|]. split; [lia|].
        split; [exact Hsucc|]. split; [exact Hrun|]. split; [exact Hcalls|].
        now replace (S j - 1)%nat with j by lia.
      * right. right. right. left. split; [exact Hkey|]. exists client, w'.
        split; [exact Hclient|]. split; [exact Hpart|]. split; [exact Hall|].
        split; [exact Hrun|]. split; [exact Hcalls | exact Hsleeps].
  - intros client k response Hall Hk Hsucc.
    exact (answered_not_all_raise env client home_call w 5 k response Hk Hsucc Hall).
Qed.


(** X9: what one request can cost, whatever the environment does: at most
    five remote calls, at most one client constructed, and at most 15 seconds
    of sleep. *)
Theorem home_effort_is_bounded (env : Environment) (w : World) :
  (calls_made w <= calls_made (snd (home env w)) <= calls_made w + 5)%nat
  /\ (clients_built w <= clients_built (snd (home env w)) <= clients_built w + 1)%nat
  /\ (total_sleep w <= total_sleep (snd (home env w)) <= total_sleep w + 15)%Z.
Proof.
  assert (Hinit : (calls_made w <= calls_made (after_client_init env w)
                   <= calls_made w + 5)%nat
                  /\ (clients_built w <= clients_built (after_client_init env w)
                      <= clients_built w + 1)%nat
                  /\ (total_sleep w <= total_sleep (after_client_init env w)
                      <= total_sleep w + 15)%Z).
  { rewrite calls_made_after_client_init.
    destruct (after_client_init_counts env w) as [Hsleeps ->].
    unfold total_sleep. rewrite Hsleeps. lia. }
  destruct (home_run_cases env w)
    as [[_ Hrun]|[(_ & e & _ & Hrun)|[(_ & client & e & _ & _ & Hrun)
       |(_ & client & j & w' & _ & _ & Hj & Hact & Hend)]]].
  - rewrite Hrun. cbn [snd]. lia.
  - rewrite Hrun. cbn [snd]. exact Hinit.
  - rewrite Hrun. cbn [snd]. exact Hinit.
  - assert (Hw : snd (home env w) = w').
    { destruct Hend as [(response & _ & Hrun)|(_ & _ & Hrun)]; now rewrite Hrun. }
    rewrite Hw.
    destruct (request_counts client _ w w' j Hact) as (-> & Hsleeps & ->).
    rewrite (total_sleep_app w w' _ Hsleeps), backoff_delays_sum.
    assert (1 <= 2 ^ Z.of_nat j)%Z by (apply Z.pow_le_mono_r with (b := 0%Z); lia).
    assert (2 ^ Z.of_nat j <= 2 ^ 4)%Z by (apply Z.pow_le_mono_r; lia).
    change (2 ^ 4)%Z with 16%Z in *. lia.
Qed.

(** X10: with the credential set and the client built, an exception raised
    by [Part.from_text] at line 69 leaves the handler at once: the response is
    a 500, and no remote call is made, nothing is slept and nothing is
    printed, whatever the remote service would have answered. *)
Theorem part_error_leaves_the_handler (env : Environment) (w : World)
    (client : Client) (e : Exception) :
  API_KEY env <> EmptyString ->
  genai_Client env (API_KEY env) = Ok client ->
  from_text_error env = Some e ->
  serve env w = (InternalServerError e, after_client_init env w)
  /\ status_code (fst (serve env w)) = 500%Z
  /\ calls_made (snd (serve env w)) = calls_made w
  /\ sleeps (snd (serve env w)) = sleeps w
  /\ stdout (snd (serve env w)) = stdout w.
Proof.
  intros Hkey Hclient Hpart.
  rewrite (serve_error env w _ e (home_without_part env w client e Hkey Hclient Hpart)).
  cbn [fst snd]. split; [reflexivity|]. split; [reflexivity|].
  split; [apply calls_made_after_client_init|].
  split; [exact (proj1 (after_client_init_counts env w)) | reflexivity].
Qed.

(** X11: the page builder and the grounding metadata.  When the first
    candidate of the response has no grounding metadata, or there is no
    candidate, [grounding_attributions] is not read and the page is built
    without the block of sources.  When it has grounding metadata the
    attribute is read, and what reading it raises leaves the page builder; the
    page builder raises in no other case. *)
Theorem page_builder_and_grounding_metadata (env : Environment)
    (response : GenerateContentResponse) :
  (first_metadata response = None ->
   build_page env response
   = Ok (html_template (format_opt_str (response_text response)) EmptyString))
  /\ (forall metadata e,
        first_metadata response = Some metadata ->
        grounding_attributions_attr env metadata = Raise e ->
        build_page env response = Raise e)
  /\ (forall e,
        build_page env response = Raise e ->
        exists metadata,
          first_metadata response = Some metadata
          /\ grounding_attributions_attr env metadata = Raise e).
Proof.
  split; [|split].
  - intros Hmeta. unfold build_page.
    now rewrite (sources_without_metadata env response Hmeta).
  - intros metadata e Hmeta Hattr. unfold build_page.
    now rewrite (sources_with_metadata env response metadata Hmeta), Hattr.
  - apply page_builder_raises_from_the_attribute.
Qed.

(** X12: a response without candidates, as for a blocked prompt, has no
    text, and the page builder makes of it a page with the word None in the
    block of the answer and no block of sources. *)
Theorem missing_text_is_shown_as_None (env : Environment)
    (response : GenerateContentResponse) :
  candidates response = None \/ candidates response = Some [] ->
  response_text response = None
  /\ build_page env response = Ok (html_template "None" EmptyString)
  /\ contains (pre_wrap_open ++ "None" ++ "</p>")
       (html_template "None" EmptyString) = true.
Proof.
  intros Hnone.
  assert (Htext : response_text response = None)
    by (unfold response_text; now destruct Hnone as [-> | ->]).
  assert (Hmeta : first_metadata response = None)
    by (unfold first_metadata; now destruct Hnone as [-> | ->]).
  split; [exact Htext|]. split.
  - unfold build_page.
    now rewrite (sources_without_metadata env response Hmeta), Htext.
  - apply answer_block_in_page.
Qed.

(** X15: whenever the page builder makes a page of a response, the text of
    the response stands in the page as it is, character for character,
    between the opening tag of the pre-wrapped block and its closing tag. *)
Theorem page_builder_embeds_text_verbatim (env : Environment)
    (response : GenerateContentResponse) (page : string) :
  build_page env response = Ok page ->
  contains (pre_wrap_open ++ format_opt_str (response_text response) ++ "</p>")
    page = true.
Proof.
  unfold build_page. intros Hpage.
  destruct (response_sources env response) as [sources|e]; [|discriminate].
  injection Hpage as <-. apply answer_block_in_page.
Qed.

(** ** The further statements at the sample environments *)

Lemma env_down_raises_next (w : World) (count : nat) :
  raises_next env_down sample_client home_call w count.
Proof. intros i _. eexists. reflexivity. Qed.

Lemma backoff_run_is_rounds_then_a_call_witness :
  (0 < 5)%Z
  /\ exists j r w',
       (j < 5)%nat
       /\ call_gemini_with_backoff env_third_time sample_client (contents home_call)
            system_prompt [google_search] 5 fresh_world = (Ok r, w')
       /\ actions w' =
          (failed_rounds sample_client home_call 0 j
           ++ [Generate sample_client home_call])%list
       /\ calls_made w' = S j
       /\ sleeps w' = backoff_delays j
       /\ clients_built w' = 0%nat.
Proof.
  split; [reflexivity|].
  exact (backoff_run_is_rounds_then_a_call env_third_time sample_client
           (contents home_call) system_prompt [google_search] 5 fresh_world eq_refl).
Defined.

(** Three attempts at a service that is down: 1 + 2 = 2^2 - 1 seconds. *)
Lemma backoff_total_sleep_witness :
  (0 < 3)%Z
  /\ raises_next env_down sample_client home_call fresh_world 3
  /\ total_sleep (snd (call_gemini_with_backoff env_down sample_client
                         (contents home_call) system_prompt [google_search] 3
                         fresh_world)) = 3%Z.
Proof.
  split; [reflexivity|]. split; [exact (env_down_raises_next fresh_world 3)|].
  exact (proj2 (backoff_total_sleep env_down sample_client (contents home_call)
                  system_prompt [google_search] 3 fresh_world eq_refl)
           (env_down_raises_next fresh_world 3)).
Defined.

(** The third call answers: a ceiling of 3 and a ceiling of 5 give the same
    run. *)
Lemma backoff_ceiling_beyond_first_answer_witness :
  (1 <= 3)%nat /\ (Z.of_nat 3 <= 5)%Z /\ (Z.of_nat 3 <= 3)%Z
  /\ succeeds_at env_third_time sample_client home_call fresh_world 3 fact_x
  /\ call_gemini_with_backoff env_third_time sample_client (contents home_call)
       system_prompt [google_search] 5 fresh_world
     = call_gemini_with_backoff env_third_time sample_client (contents home_call)
         system_prompt [google_search] 3 fresh_world.
Proof.
  assert (H1 : (1 <= 3)%nat) by (repeat constructor).
  assert (H2 : (Z.of_nat 3 <= 5)%Z) by (vm_compute; discriminate).
  assert (H3 : (Z.of_nat 3 <= 3)%Z) by (vm_compute; discriminate).
  split; [exact H1|]. split; [exact H2|]. split; [exact H3|].
  split; [exact third_time_succeeds|].
  exact (proj1 (backoff_ceiling_beyond_first_answer env_third_time sample_client
                  (contents home_call) system_prompt [google_search] 5 3 3 fact_x
                  fresh_world H1 H2 H3 third_time_succeeds)).
Defined.

Lemma backoff_log_when_exhausted_witness :
  (0 < 3)%Z
  /\ (forall i, (i < Z.to_nat 3)%nat ->
        models_generate_content env_down sample_client
          (backoff_call (contents home_call) system_prompt [google_search])
          (calls_made fresh_world + i)
        = Raise (unavailable i))
  /\ stdout (snd (call_gemini_with_backoff env_down sample_client
                    (contents home_call) system_prompt [google_search] 3
                    fresh_world))
     = ["Attempting API call (Attempt 1)...";
        "API call failed on attempt 1: 503 UNAVAILABLE";
        "Waiting 1 seconds before retrying...";
        "Attempting API call (Attempt 2)...";
        "API call failed on attempt 2: 503 UNAVAILABLE";
        "Waiting 2 seconds before retrying...";
        "Attempting API call (Attempt 3)...";
        "API call failed on attempt 3: 503 UNAVAILABLE"].
Proof.
  assert (H : forall i, (i < Z.to_nat 3)%nat ->
                models_generate_content env_down sample_client
                  (backoff_call (contents home_call) system_prompt [google_search])
                  (calls_made fresh_world + i)
                = Raise (unavailable i))
    by (intros i _; reflexivity).
  split; [reflexivity|]. split; [exact H|].
  exact (proj1 (backoff_log_when_exhausted env_down sample_client
                  (contents home_call) system_prompt [google_search] 3 unavailable
                  fresh_world eq_refl H)).
Defined.

Lemma backoff_log_when_answered_witness :
  (1 <= 3)%nat /\ (Z.of_nat 3 <= 5)%Z
  /\ stdout (snd (call_gemini_with_backoff env_third_time sample_client
                    (contents home_call) system_prompt [google_search] 5
                    fresh_world))
     = ["Attempting API call (Attempt 1)...";
        "API call failed on attempt 1: 429 RESOURCE_EXHAUSTED";
        "Waiting 1 seconds before retrying...";
        "Attempting API call (Attempt 2)...";
        "API call failed on attempt 2: 429 RESOURCE_EXHAUSTED";
        "Waiting 2 seconds before retrying...";
        "Attempting API call (Attempt 3)...";
        "API call successful."].
Proof.
  assert (H1 : (1 <= 3)%nat) by (repeat constructor).
  assert (H2 : (Z.of_nat 3 <= 5)%Z) by (vm_compute; discriminate).
  assert (Hfail : forall i, (i < 3 - 1)%nat ->
                    models_generate_content env_third_time sample_client
                      (backoff_call (contents home_call) system_prompt [google_search])
                      (calls_made fresh_world + i)
                    = Raise (exhausted_quota i)).
  { intros i Hi. destruct i as [|[|i]]; [reflexivity | reflexivity |].
    exfalso. cbn in Hi. lia. }
  split; [exact H1|]. split; [exact H2|].
  exact (proj1 (backoff_log_when_answered env_third_time sample_client
                  (contents home_call) system_prompt [google_search] 5 3
                  exhausted_quota fact_x fresh_world H1 H2 Hfail eq_refl)).
Defined.


(** The service would answer, but no call is made. *)
Lemma part_error_leaves_the_handler_witness :
  API_KEY (env_answering textless_answer) <> EmptyString
  /\ genai_Client (env_answering textless_answer)
       (API_KEY (env_answering textless_answer)) = Ok sample_client
  /\ from_text_error (env_answering textless_answer) = Some type_error
  /\ serve (env_answering textless_answer) fresh_world
     = (InternalServerError type_error,
        {| actions := [ClientInit "secret"]; stdout := [] |})
  /\ calls_made (snd (serve (env_answering textless_answer) fresh_world)) = 0%nat.
Proof.
  assert (Hkey : API_KEY (env_answering textless_answer) <> EmptyString)
    by (vm_compute; discriminate).
  pose proof (part_error_leaves_the_handler (env_answering textless_answer)
                fresh_world sample_client type_error Hkey eq_refl eq_refl)
    as (Hserve & _ & Hcalls & _).
  split; [exact Hkey|]. split; [reflexivity|]. split; [reflexivity|].
  split; [exact Hserve | exact Hcalls].
Defined.

Lemma missing_text_is_shown_as_None_witness :
  (candidates textless_answer = None \/ candidates textless_answer = Some [])
  /\ response_text textless_answer = None
  /\ build_page (env_answering textless_answer) textless_answer
     = Ok (html_template "None" EmptyString).
Proof.
  assert (H : candidates textless_answer = None \/ candidates textless_answer = Some [])
    by (left; reflexivity).
  pose proof (missing_text_is_shown_as_None (env_answering textless_answer)
                textless_answer H) as (Htext & Hpage & _).
  split; [exact H|]. split; [exact Htext | exact Hpage].
Defined.

(** Markup in the text stands in the page as it is. *)
Lemma page_builder_embeds_text_verbatim_witness :
  build_page (env_answering markup_answer) markup_answer
  = Ok (html_template "<b>&</b>" EmptyString)
  /\ contains (pre_wrap_open ++ "<b>&</b>" ++ "</p>")
       (html_template "<b>&</b>" EmptyString) = true.
Proof.
  assert (H : build_page (env_answering markup_answer) markup_answer
              = Ok (html_template "<b>&</b>" EmptyString))
    by reflexivity.
  split; [exact H|].
  exact (page_builder_embeds_text_verbatim (env_answering markup_answer)
           markup_answer _ H).
Defined.

(** ** The calls of a request *)

Lemma generate_in_failed_rounds (client c : Client) (call call' : GenerateContentCall)
    (count first : nat) :
  In (Generate c call') (failed_rounds client call first count) ->
  c = client /\ call' = call.
Proof.
  revert first. induction count as [|count IH]; intros first Hin; [destruct Hin|].
  rewrite failed_rounds_S in Hin. cbn in Hin.
  destruct Hin as [[= <- <-]|[Hsleep|Hin]]; [now split | discriminate | eauto].
Qed.

(** X14: what a request sends.  Every remote call made during a request is
    made with the client that the constructor returned for the credential and
    carries the fixed model name, prompt, system instruction and search tool;
    nothing else is ever sent. *)
Theorem request_calls_carry_the_fixed_prompt (env : Environment) (w : World)
    (c : Client) (call : GenerateContentCall) :
  In (Generate c call) (actions (snd (home env w))) ->
  In (Generate c call) (actions w)
  \/ (API_KEY env <> EmptyString
      /\ genai_Client env (API_KEY env) = Ok c
      /\ call = home_call).
Proof.
  intros Hin.
  assert (Hinit : In (Generate c call) (actions (after_client_init env w)) ->
                  In (Generate c call) (actions w)).
  { cbn [after_client_init actions]. intros H.
    apply in_app_or in H. destruct H as [H|[H|[]]]; [exact H | discriminate]. }
  destruct (home_run_cases env w)
    as [[_ Hrun]|[(_ & e & _ & Hrun)|[(_ & client & e & _ & _ & Hrun)
       |(Hkey & client & j & w' & Hclient & _ & _ & Hact & Hend)]]].
  - rewrite Hrun in Hin. now left.
  - rewrite Hrun in Hin. left. now apply Hinit.
  - rewrite Hrun in Hin. left. now apply Hinit.
  - assert (Hw : snd (home env w) = w').
    { destruct Hend as [(response & _ & Hrun)|(_ & _ & Hrun)]; now rewrite Hrun. }
    rewrite Hw, Hact in Hin.
    apply in_app_or in Hin. destruct Hin as [Hin|Hin]; [now left|].
    right. split; [exact Hkey|].
    cbn [app] in Hin. destruct Hin as [Hin|Hin]; [discriminate|].
    apply in_app_or in Hin. destruct Hin as [Hin|[[= <- <-]|[]]].
    + destruct (generate_in_failed_rounds client c home_call call j 0 Hin)
        as [-> ->].
      now split.
    + now split.
Qed.

Lemma request_calls_carry_the_fixed_prompt_witness :
  In (Generate sample_client home_call)
     (actions (snd (home env_third_time fresh_world)))
  /\ (In (Generate sample_client home_call) (actions fresh_world)
      \/ (API_KEY env_third_time <> EmptyString
          /\ genai_Client env_third_time (API_KEY env_third_time) = Ok sample_client
          /\ home_call = home_call)).
Proof.
  assert (Hin : In (Generate sample_client home_call)
                   (actions (snd (home env_third_time fresh_world))))
    by (vm_compute; right; left; reflexivity).
  split; [exact Hin|].
  exact (request_calls_carry_the_fixed_prompt env_third_time fresh_world
           sample_client home_call Hin).
Defined.
